(** * News-Scraper: the ingestion pipeline of [news.py]

    A shallow embedding of the non-GUI core of [news.py]
    ([NewsAnalyzer.fetch_news], [analyze_sentiment], [extract_keywords],
    [process_article], [save_articles]) and of the three store operations
    the GUI class runs directly on the database ([save_search_query],
    [load_recent_searches], [toggle_bookmark]), followed by the properties
    the specification states about them.

    Conventions.
    - A Python [str] is a [string]; every [ascii] stands for the code point
      of the same number (U+0000 to U+00FF).
    - A value that may be [None] is an [option]; [None] is Python's [None]
      and SQL's [NULL].
    - A Python float is a binary64 [float]; a Python [int] is a [Z].
    - A call that may raise returns a [result]; [try]/[except] is
      [try_except].
    - The libraries the program calls without defining them are interfaces:
      the TextBlob scorer is a [sentiment_oracle], [datetime] is a
      [DateTimeLib].  SQLite's statements are modelled on tables that are
      lists of rows in rowid order. *)

From Stdlib Require Import String Ascii List ZArith Lia Bool Arith.
From Stdlib Require Import Permutation Sorted.
From Stdlib Require Import Floats.
From Stdlib Require Import DecimalString.
Import ListNotations.
Open Scope string_scope.
#[local] Set Warnings "-inexact-float".

(* ================================================================== *)
(** ** Python values and exceptions *)
(* ================================================================== *)

Module Py.

(** The exception classes the modelled code can raise. *)
Inductive exn : Type :=
| KeyError (key : string)               (* d[key] on a missing key *)
| TypeError (what : string)             (* None[...], iterating None *)
| AttributeError (what : string)        (* None.replace *)
| ValueError (what : string)            (* datetime.fromisoformat *)
| IntegrityError (what : string)        (* sqlite3.IntegrityError *)
| RequestException (what : string)      (* requests.exceptions.* *)
| OracleError (what : string)           (* anything TextBlob raises *)
| Exception (message : string).         (* raise Exception(...) *)

Inductive result (A : Type) : Type :=
| Ok (a : A)
| Raise (e : exn).
Arguments Ok {A} a.
Arguments Raise {A} e.

Definition bind {A B} (m : result A) (k : A -> result B) : result B :=
  match m with
  | Ok a => k a
  | Raise e => Raise e
  end.

(** [try: body except: handler] with a bare [except]. *)
Definition try_except {A} (body : result A) (handler : exn -> result A)
  : result A :=
  match body with
  | Ok a => Ok a
  | Raise e => handler e
  end.

(** [str(e)]: the message an exception prints. *)
Definition exn_message (e : exn) : string :=
  match e with
  | KeyError k => "'" ++ k ++ "'"
  | TypeError w | AttributeError w | ValueError w | IntegrityError w
  | RequestException w | OracleError w | Exception w => w
  end.

(** Truth value of a [str | None]: [None] and [''] are false. *)
Definition truthy (v : option string) : bool :=
  match v with
  | Some s => negb (s =? "")
  | None => false
  end.

(** [x or y] on [str | None] with a string default. *)
Definition or_else (x : option string) (y : string) : string :=
  match x with
  | Some s => if s =? "" then y else s
  | None => y
  end.

(** [str(x)] as an f-string formats it. *)
Definition str (x : option string) : string :=
  match x with
  | Some s => s
  | None => "None"
  end.

Definition code (c : ascii) : nat := nat_of_ascii c.

Definition in_range (lo hi n : nat) : bool := (lo <=? n)%nat && (n <=? hi)%nat.

(** [str.isspace] per character, which is also [\s] of [re] on [str]:
    TAB to CR, FS to US, SPACE, NEL and NBSP below U+0100. *)
Definition isspace (c : ascii) : bool :=
  let n := code c in
  in_range 9 13 n || in_range 28 32 n || (n =? 133)%nat || (n =? 160)%nat.

(** [str.lower] per character: A to Z, and the Latin-1 capitals U+00C0 to
    U+00DE except the multiplication sign U+00D7. *)
Definition lower_char (c : ascii) : ascii :=
  let n := code c in
  if in_range 65 90 n || (in_range 192 222 n && negb (n =? 215)%nat)
  then ascii_of_nat (n + 32)
  else c.

Fixpoint lower (s : string) : string :=
  match s with
  | EmptyString => EmptyString
  | String c s' => String (lower_char c) (lower s')
  end.

Fixpoint filter_chars (keep : ascii -> bool) (s : string) : string :=
  match s with
  | EmptyString => EmptyString
  | String c s' =>
      if keep c then String c (filter_chars keep s') else filter_chars keep s'
  end.

(** [s.split()]: the maximal runs of non-space characters, in order.
    [cur] is the run being read. *)
Fixpoint split_from (cur : string) (s : string) : list string :=
  match s with
  | EmptyString => if cur =? "" then [] else [cur]
  | String c s' =>
      if isspace c
      then (if cur =? "" then split_from "" s' else cur :: split_from "" s')
      else split_from (cur ++ String c "") s'
  end.

Definition split (s : string) : list string := split_from "" s.

(** [s.replace(old, new)] for a one-character [old]. *)
Fixpoint replace_char (old : ascii) (new : string) (s : string) : string :=
  match s with
  | EmptyString => EmptyString
  | String c s' =>
      if Ascii.eqb c old then new ++ replace_char old new s'
      else String c (replace_char old new s')
  end.

(** [sep.join(l)]. *)
Definition join (sep : string) (l : list string) : string := String.concat sep l.

(** [x in s] for a set (or list) of strings. *)
Definition mem (x : string) (s : list string) : bool :=
  existsb (String.eqb x) s.

(** A [collections.Counter]: a dict, so its items keep the order in which
    the keys were first inserted. *)
Definition Counter := list (string * Z).

Fixpoint counter_incr (w : string) (c : Counter) : Counter :=
  match c with
  | [] => [(w, 1%Z)]
  | (k, n) :: c' =>
      if k =? w then (k, (n + 1)%Z) :: c' else (k, n) :: counter_incr w c'
  end.

(** [Counter(words)]: one increment per word, left to right. *)
Definition count_words (words : list string) : Counter :=
  fold_left (fun c w => counter_incr w c) words [].

(** [sorted(items, key=itemgetter(1), reverse=True)]: descending counts;
    the sort is stable, and [reverse=True] keeps equal items in their
    original order.  [insert_desc x l] puts [x] in front of the first item
    that is not larger. *)
Fixpoint insert_desc (x : string * Z) (l : list (string * Z))
  : list (string * Z) :=
  match l with
  | [] => [x]
  | y :: l' =>
      if (snd y <=? snd x)%Z then x :: y :: l' else y :: insert_desc x l'
  end.

Fixpoint sorted_desc (l : list (string * Z)) : list (string * Z) :=
  match l with
  | [] => []
  | x :: l' => insert_desc x (sorted_desc l')
  end.

(** [c.most_common(n)] is [heapq.nlargest(n, c.items(), key=itemgetter(1))],
    which is [sorted(..., reverse=True)[:n]]; [n <= 0] gives []. *)
Definition most_common (n : Z) (c : Counter) : list (string * Z) :=
  firstn (Z.to_nat n) (sorted_desc c).

End Py.
Import Py.

(* ================================================================== *)
(** ** Library interfaces *)
(* ================================================================== *)

(** TextBlob: [HAS_TEXTBLOB] says whether the import succeeded;
    [polarity text] is [TextBlob(text).sentiment.polarity], which may raise. *)
Record sentiment_oracle : Type := {
  HAS_TEXTBLOB : bool;
  polarity : string -> result float
}.

(** [datetime]: the parsed value, [datetime.fromisoformat] (None when it
    raises ValueError), the message of that ValueError
    ("Invalid isoformat string: ...", "month must be in 1..12", ...) and
    [dt.isoformat()]. *)
Class DateTimeLib : Type := {
  datetime : Type;
  fromisoformat : string -> option datetime;
  fromisoformat_error : string -> string;
  isoformat : datetime -> string
}.

(* ================================================================== *)
(** ** class NewsArticle *)
(* ================================================================== *)

Section Article.
Context {DT : DateTimeLib}.

Record NewsArticle : Type := {
  title : option string;
  description : option string;
  url : option string;
  source : option string;
  published_at : datetime;
  image_url : option string;
  content : option string;
  sentiment_score : float;
  sentiment_label : string;
  keywords : list string
}.

(** [NewsArticle.__init__]: the sentiment fields start at their defaults. *)
Definition new_article (title description url source : option string)
  (published_at : datetime) (image_url content : option string)
  : NewsArticle :=
  {| title := title; description := description; url := url;
     source := source; published_at := published_at;
     image_url := image_url; content := content;
     sentiment_score := 0%float; sentiment_label := "neutral";
     keywords := [] |}.

End Article.

(* ================================================================== *)
(** ** NewsAnalyzer: sentiment and keywords *)
(* ================================================================== *)

Module Enricher.

(** [analyze_sentiment]. *)
Definition classify (p : float) : string :=
  if (0.1 <? p)%float then "positive"
  else if (p <? -0.1)%float then "negative"
  else "neutral".

Definition analyze_sentiment (O : sentiment_oracle) (text : string)
  : result (float * string) :=
  if negb (HAS_TEXTBLOB O) || (text =? "") then Ok (0%float, "neutral")
  else
    try_except
      (bind (polarity O text) (fun p => Ok (p, classify p)))
      (fun _ => Ok (0%float, "neutral")).

(** The character class [a-zA-Z\s] of the pattern [[^a-zA-Z\s]]. *)
Definition in_class (c : ascii) : bool :=
  in_range 97 122 (code c) || in_range 65 90 (code c) || isspace c.

(** [re.sub(r'[^a-zA-Z\s]', '', s)]. *)
Definition re_sub_clean (s : string) : string := filter_chars in_class s.

Definition stop_words : list string :=
  [ "the"; "and"; "or"; "but"; "in"; "on"; "at"; "to"; "for"; "of"; "with";
    "by"; "from"; "up"; "about"; "into"; "through"; "during"; "before";
    "after"; "above"; "below"; "between"; "among"; "this"; "that"; "these";
    "those"; "is"; "are"; "was"; "were"; "be"; "been"; "being"; "have";
    "has"; "had"; "do"; "does"; "did"; "will"; "would"; "could"; "should";
    "may"; "might"; "must"; "can"; "said"; "says"; "news"; "report" ].

(** The body of [extract_keywords] for a given stop-word set. *)
Definition keywords_with (stop : list string) (text : string)
  (num_keywords : Z) : list string :=
  if text =? "" then []
  else
    let text := re_sub_clean (lower text) in
    let words :=
      filter (fun word => (3 <=? String.length word)%nat && negb (mem word stop))
             (split text) in
    let word_freq := count_words words in
    map fst (most_common num_keywords word_freq).

Definition extract_keywords (text : string) (num_keywords : Z) : list string :=
  keywords_with stop_words text num_keywords.

Definition default_num_keywords : Z := 5.

Section Process.
Context {DT : DateTimeLib}.

(** [process_article]: the article object is updated in place; the
    updated article is the result. *)
Definition full_text (article : NewsArticle) : string :=
  str (title article) ++ " " ++ str (description article).

Definition process_article (O : sentiment_oracle) (article : NewsArticle)
  : result NewsArticle :=
  let full_text := full_text article in
  bind (analyze_sentiment O full_text) (fun sl =>
  let kws := extract_keywords full_text default_num_keywords in
  Ok {| title := title article; description := description article;
        url := url article; source := source article;
        published_at := published_at article;
        image_url := image_url article; content := content article;
        sentiment_score := fst sl; sentiment_label := snd sl;
        keywords := kws |}).

End Process.
End Enricher.

(* ================================================================== *)
(** ** NewsAnalyzer.fetch_news *)
(* ================================================================== *)

Module Fetcher.

(** A JSON object whose members are strings or null. *)
Definition dict := list (string * option string).

Fixpoint dict_get (key : string) (d : dict) : option (option string) :=
  match d with
  | [] => None
  | (k, v) :: d' => if k =? key then Some v else dict_get key d'
  end.

(** [d.get(key)] and [d.get(key, default)]. *)
Definition get (d : dict) (key : string) : option string :=
  match dict_get key d with
  | Some v => v
  | None => None
  end.

Definition get_default (d : dict) (key : string) (default : string)
  : option string :=
  match dict_get key d with
  | Some v => v
  | None => Some default
  end.

(** [d[key]]. *)
Definition subscript (d : dict) (key : string) : result (option string) :=
  match dict_get key d with
  | Some v => Ok v
  | None => Raise (KeyError key)
  end.

(** One record of the reply's [articles] array, typed as the News API
    documents it: string-or-null members, and a [source] member that is
    absent, null, or an object of string-or-null members. *)
Record raw_item : Type := {
  members : dict;
  source_member : option (option dict)
}.

(** The decoded JSON reply: each member absent, null or present. *)
Record api_data : Type := {
  status : option (option string);
  message : option (option string);
  articles : option (option (list raw_item))
}.

(** What [requests.get], [raise_for_status] and [response.json()] give:
    an exception, or the decoded reply. *)
Inductive http_reply : Type :=
| Failed (e : exn)
| Json (data : api_data).

Section Fetch.
Context {DT : DateTimeLib}.

(** The loop's guard:
    [item.get('title') and item.get('title') != '[Removed]']. *)
Definition has_usable_title (item : raw_item) : bool :=
  truthy (get (members item) "title")
  && negb (match get (members item) "title" with
           | Some t => t =? "[Removed]"
           | None => false
           end).

(** [item['source']['name']]. *)
Definition source_name (item : raw_item) : result (option string) :=
  match source_member item with
  | None => Raise (KeyError "source")
  | Some None => Raise (TypeError "'NoneType' object is not subscriptable")
  | Some (Some src) => subscript src "name"
  end.

(** [datetime.fromisoformat(item['publishedAt'].replace('Z', '+00:00'))]. *)
Definition parse_published_at (item : raw_item) : result datetime :=
  bind (subscript (members item) "publishedAt") (fun p =>
  match p with
  | None =>
      Raise (AttributeError "'NoneType' object has no attribute 'replace'")
  | Some text =>
      let iso := replace_char "Z"%char "+00:00" text in
      match fromisoformat iso with
      | Some dt => Ok dt
      | None => Raise (ValueError (fromisoformat_error iso))
      end
  end).

(** The [NewsArticle(...)] call of the loop body; its keyword arguments
    are evaluated in the order they are written. *)
Definition build_article (item : raw_item) : result NewsArticle :=
  bind (subscript (members item) "title") (fun title =>
  let description := get_default (members item) "description" "" in
  bind (subscript (members item) "url") (fun url =>
  bind (source_name item) (fun source =>
  bind (parse_published_at item) (fun published_at =>
  let image_url := get (members item) "urlToImage" in
  let content := get_default (members item) "content" "" in
  Ok (new_article title description url source published_at
                  image_url content))))).

(** [for item in ...: if ...: articles.append(NewsArticle(...))]. *)
Fixpoint collect (items : list raw_item) : result (list NewsArticle) :=
  match items with
  | [] => Ok []
  | item :: rest =>
      if has_usable_title item
      then bind (build_article item) (fun article =>
           bind (collect rest) (fun more => Ok (article :: more)))
      else collect rest
  end.

(** The body of the [try]. *)
Definition fetch_body (reply : http_reply) : result (list NewsArticle) :=
  match reply with
  | Failed e => Raise e
  | Json data =>
      match status data with
      | Some (Some "ok") =>
          match articles data with
          | None => Ok []                       (* data.get('articles', []) *)
          | Some None => Raise (TypeError "'NoneType' object is not iterable")
          | Some (Some items) => collect items
          end
      | _ =>
          let msg := match message data with
                     | None => "Unknown error"
                     | Some m => str m
                     end in
          Raise (Exception ("API Error: " ++ msg))
      end
  end.

(** A decoded reply with status ok that carries [items]. *)
Definition ok_reply (items : list raw_item) : http_reply :=
  Json {| status := Some (Some "ok"); message := None;
          articles := Some (Some items) |}.

(** The exceptions the loop over the items can raise. *)
Definition raised_by_item (e : exn) : Prop :=
  match e with
  | KeyError _ | TypeError _ | AttributeError _ | ValueError _ => True
  | _ => False
  end.

(** The two [except] clauses, in order. *)
Definition fetch_handler (e : exn) : result (list NewsArticle) :=
  match e with
  | RequestException _ => Raise (Exception ("Network error: " ++ exn_message e))
  | _ => Raise (Exception ("Error fetching news: " ++ exn_message e))
  end.

(** [fetch_news], from the HTTP reply on. *)
Definition fetch_news (reply : http_reply) : result (list NewsArticle) :=
  try_except (fetch_body reply) fetch_handler.

End Fetch.
End Fetcher.

(* ================================================================== *)
(** ** The SQLite store *)
(* ================================================================== *)

Module Store.

(** A row of [articles].  [title] is [NOT NULL]; [id] is the
    [AUTOINCREMENT] key; [bookmarked] and [created_at] have defaults. *)
Record article_row : Type := {
  id : Z;
  r_title : string;
  r_description : option string;
  r_content : option string;
  r_url : option string;
  r_source : option string;
  r_published_at : option string;
  r_image_url : option string;
  r_sentiment_score : float;
  r_sentiment_label : string;
  r_keywords : option string;
  r_category : option string;
  bookmarked : Z;
  created_at : Z
}.

(** A row of [searches]. *)
Record search_row : Type := {
  s_id : Z;
  s_query : string;
  s_category : option string;
  s_timestamp : Z
}.

(** The database file: each table in rowid order, with the largest rowid
    it has handed out ([sqlite_sequence]). *)
Record database : Type := {
  articles : list article_row;
  articles_seq : Z;
  searches : list search_row;
  searches_seq : Z
}.

(** [setup_database] on a new file. *)
Definition setup_database : database :=
  {| articles := []; articles_seq := 0; searches := []; searches_seq := 0 |}.

(** The outcome of one [cursor.execute] of an INSERT. *)
Inductive executed : Type :=
| Executed (db : database)
| Integrity (what : string).       (* sqlite3.IntegrityError *)

(** [url = ?]: SQL equality, never true on NULL. *)
Definition url_is (param : option string) (r : article_row) : bool :=
  match param, r_url r with
  | Some u, Some v => u =? v
  | _, _ => false
  end.

(** The values an INSERT of this program binds; the columns it leaves out
    get [default_bookmarked] and the clock. *)
Record insert_values : Type := {
  v_title : option string;
  v_description : option string;
  v_content : option string;
  v_url : option string;
  v_source : option string;
  v_published_at : option string;
  v_image_url : option string;
  v_sentiment_score : float;
  v_sentiment_label : string;
  v_keywords : option string;
  v_category : option string;
  v_bookmarked : option Z            (* None: column not listed *)
}.

Definition default_bookmarked : Z := 0.

Definition new_row (db : database) (t : string) (v : insert_values) (now : Z)
  : article_row :=
  {| id := articles_seq db + 1;
     r_title := t;
     r_description := v_description v;
     r_content := v_content v;
     r_url := v_url v;
     r_source := v_source v;
     r_published_at := v_published_at v;
     r_image_url := v_image_url v;
     r_sentiment_score := v_sentiment_score v;
     r_sentiment_label := v_sentiment_label v;
     r_keywords := v_keywords v;
     r_category := v_category v;
     bookmarked := match v_bookmarked v with
                   | Some b => b
                   | None => default_bookmarked
                   end;
     created_at := now |}.

Definition with_articles (db : database) (rows : list article_row) (seq : Z)
  : database :=
  {| articles := rows; articles_seq := seq;
     searches := searches db; searches_seq := searches_seq db |}.

(** [INSERT OR REPLACE INTO articles ...]: a NULL title has no default to
    fall back on, so the statement aborts; otherwise every row that holds
    the new row's url is deleted and the new row is added. *)
Definition insert_or_replace (db : database) (v : insert_values) (now : Z)
  : executed :=
  match v_title v with
  | None => Integrity "NOT NULL constraint failed: articles.title"
  | Some t =>
      let kept := filter (fun r => negb (url_is (v_url v) r)) (articles db) in
      Executed (with_articles db (kept ++ [new_row db t v now])
                              (articles_seq db + 1))
  end.

(** [INSERT INTO articles ...]: aborts on a NULL title or a taken url. *)
Definition insert (db : database) (v : insert_values) (now : Z) : executed :=
  match v_title v with
  | None => Integrity "NOT NULL constraint failed: articles.title"
  | Some t =>
      if existsb (url_is (v_url v)) (articles db)
      then Integrity "UNIQUE constraint failed: articles.url"
      else Executed (with_articles db (articles db ++ [new_row db t v now])
                                   (articles_seq db + 1))
  end.

(** The rows [SELECT * FROM articles WHERE url = u] returns. *)
Definition rows_at (u : string) (db : database) : list article_row :=
  filter (url_is (Some u)) (articles db).

(** [SELECT ... FROM articles WHERE url = ?] then [fetchone()]. *)
Definition select_by_url (db : database) (u : option string)
  : option article_row :=
  find (url_is u) (articles db).

Definition set_bookmarked (b : Z) (r : article_row) : article_row :=
  {| id := id r; r_title := r_title r; r_description := r_description r;
     r_content := r_content r; r_url := r_url r; r_source := r_source r;
     r_published_at := r_published_at r; r_image_url := r_image_url r;
     r_sentiment_score := r_sentiment_score r;
     r_sentiment_label := r_sentiment_label r; r_keywords := r_keywords r;
     r_category := r_category r; bookmarked := b;
     created_at := created_at r |}.

(** [UPDATE articles SET bookmarked = ? WHERE url = ?]. *)
Definition update_bookmarked (db : database) (b : Z) (u : option string)
  : database :=
  with_articles db
    (map (fun r => if url_is u r then set_bookmarked b r else r) (articles db))
    (articles_seq db).

Section Articles.
Context {DT : DateTimeLib}.

(** The parameters [save_articles] binds for one article. *)
Definition save_values (article : NewsArticle) (category : option string)
  : insert_values :=
  {| v_title := title article;
     v_description := description article;
     v_content := content article;
     v_url := url article;
     v_source := source article;
     v_published_at := Some (isoformat (published_at article));
     v_image_url := image_url article;
     v_sentiment_score := sentiment_score article;
     v_sentiment_label := sentiment_label article;
     v_keywords := Some (join "," (keywords article));
     v_category := Some (or_else category "general");
     v_bookmarked := None |}.

(** An article that [save_articles] writes under the url [u]: it has
    that url, and a title. *)
Definition writes_url (u : string) (article : NewsArticle) : bool :=
  match url article, title article with
  | Some v, Some _ => v =? u
  | _, _ => false
  end.

(** The loop of [save_articles]: an IntegrityError skips the article. *)
Fixpoint save_loop (db : database) (saved_count : Z)
  (arts : list NewsArticle) (category : option string) (now : Z)
  : database * Z :=
  match arts with
  | [] => (db, saved_count)
  | article :: rest =>
      match insert_or_replace db (save_values article category) now with
      | Executed db' => save_loop db' (saved_count + 1) rest category now
      | Integrity _ => save_loop db saved_count rest category now
      end
  end.

(** [save_articles]: the committed database and [saved_count].  [now] is
    the clock that [CURRENT_TIMESTAMP] reads during the call. *)
Definition save_articles (db : database) (arts : list NewsArticle)
  (category : option string) (now : Z) : database * Z :=
  save_loop db 0 arts category now.

(** What [messagebox] shows. *)
Inductive dialog : Type :=
| showinfo (caption text : string)
| showerror (caption text : string).

(** The parameters of the INSERT in [toggle_bookmark]; [category] is not
    listed and [bookmarked] is the literal 1. *)
Definition bookmark_values (article : NewsArticle) : insert_values :=
  {| v_title := title article;
     v_description := description article;
     v_content := Some (or_else (content article) "");
     v_url := url article;
     v_source := source article;
     v_published_at := Some (isoformat (published_at article));
     v_image_url := image_url article;
     v_sentiment_score := sentiment_score article;
     v_sentiment_label := sentiment_label article;
     v_keywords := Some (join "," (keywords article));
     v_category := None;
     v_bookmarked := Some 1%Z |}.

(** The [try] body of [ModernNewsGUI.toggle_bookmark], up to the commit. *)
Definition toggle_body (O : sentiment_oracle) (db : database)
  (article : NewsArticle) (now : Z) : result (database * dialog) :=
  match select_by_url db (url article) with
  | Some result =>
      let new_bookmark_state := (1 - bookmarked result)%Z in
      let db' := update_bookmarked db new_bookmark_state (url article) in
      let action := if negb (new_bookmark_state =? 0)%Z then "added to"
                    else "removed from" in
      Ok (db', showinfo "Bookmark" ("Article " ++ action ++ " bookmarks!"))
  | None =>
      bind (Enricher.process_article O article) (fun processed_article =>
      match insert db (bookmark_values processed_article) now with
      | Executed db' =>
          Ok (db', showinfo "Bookmark" "Article added to bookmarks!")
      | Integrity what => Raise (IntegrityError what)
      end)
  end.

(** [toggle_bookmark]: an exception leaves the database as it was (nothing
    was committed) and shows the error. *)
Definition toggle_bookmark (O : sentiment_oracle) (db : database)
  (article : NewsArticle) (now : Z) : database * dialog :=
  match toggle_body O db article now with
  | Ok out => out
  | Raise e =>
      (db, showerror "Error" ("Failed to bookmark article: " ++ exn_message e))
  end.

End Articles.

(** [ModernNewsGUI.save_search_query]:
    [INSERT INTO searches (query) VALUES (?)]. *)
Definition save_search_query (db : database) (query : string) (now : Z)
  : database :=
  {| articles := articles db; articles_seq := articles_seq db;
     searches := searches db ++
       [ {| s_id := searches_seq db + 1; s_query := query;
            s_category := None; s_timestamp := now |} ];
     searches_seq := searches_seq db + 1 |}.

(** [SELECT DISTINCT query ... ORDER BY timestamp DESC]: SQLite reads the
    table in rowid order, drops a row whose [query] it has already seen,
    and hands the rows that are left to the sorter. *)
Fixpoint distinct_scan (seen : list string) (rows : list search_row)
  : list search_row :=
  match rows with
  | [] => []
  | r :: rest =>
      if mem (s_query r) seen then distinct_scan seen rest
      else r :: distinct_scan (s_query r :: seen) rest
  end.

(** The sorter: descending timestamps, equal ones in scan order. *)
Fixpoint sorter_insert (r : search_row) (l : list search_row)
  : list search_row :=
  match l with
  | [] => [r]
  | y :: l' =>
      if (s_timestamp y <=? s_timestamp r)%Z then r :: y :: l'
      else y :: sorter_insert r l'
  end.

Fixpoint order_by_timestamp_desc (rows : list search_row) : list search_row :=
  match rows with
  | [] => []
  | r :: rest => sorter_insert r (order_by_timestamp_desc rest)
  end.

(** The query of [ModernNewsGUI.load_recent_searches]; its result is the
    text of the buttons, left to right. *)
Definition load_recent_searches (db : database) : list string :=
  map s_query
      (firstn 5 (order_by_timestamp_desc (distinct_scan [] (searches db)))).

End Store.

(* ================================================================== *)
(** ** The specification's wording of keyword extraction *)
(* ================================================================== *)

Module Spec.

(** "Alphabetic" is read as the letters a to z and A to Z. *)
Definition is_letter (c : ascii) : bool :=
  ((code "a" <=? code c)%nat && (code c <=? code "z")%nat)
  || ((code "A" <=? code c)%nat && (code c <=? code "Z")%nat).

(** "lowercase the combined text, strip all non-alphabetic characters
    (letters and whitespace only), split on whitespace, drop tokens shorter
    than 3 characters and tokens in a fixed stop-word set". *)
Definition tokens_with (stop : list string) (text : string) : list string :=
  let lowered := lower text in
  let stripped := filter_chars (fun c => is_letter c || isspace c) lowered in
  filter (fun t => negb (String.length t <? 3)%nat && negb (mem t stop))
         (split stripped).

Definition tokens (text : string) : list string :=
  tokens_with Enricher.stop_words text.

(** "count frequency". *)
Definition frequency (toks : list string) (w : string) : nat :=
  count_occ string_dec toks w.

(** The position at which a token is first encountered. *)
Fixpoint first_seen (toks : list string) (w : string) : nat :=
  match toks with
  | [] => 0
  | t :: rest => if t =? w then 0 else S (first_seen rest w)
  end.

(** "by descending frequency; ties broken by first-encountered order". *)
Definition ranks_before (toks : list string) (a b : string) : Prop :=
  (frequency toks b < frequency toks a)%nat
  \/ (frequency toks a = frequency toks b
      /\ (first_seen toks a < first_seen toks b)%nat).

(** The order of a counter's items before and after the sort, for keys
    placed by [pos]. *)
Definition entered_before (pos : string -> nat) (x y : string * Z) : Prop :=
  (pos (fst x) < pos (fst y))%nat.

Definition outranks (pos : string -> nat) (x y : string * Z) : Prop :=
  (snd y < snd x)%Z \/ (snd x = snd y /\ (pos (fst x) < pos (fst y))%nat).

(** What a [Counter] of [toks] holds: every token once, in first-seen
    order, with its frequency. *)
Definition counts_of (toks : list string) (c : Counter) : Prop :=
  StronglySorted (fun a b => (first_seen toks a < first_seen toks b)%nat)
                 (map fst c)
  /\ (forall w, In w (map fst c) <-> In w toks)
  /\ Forall (fun e => snd e = Z.of_nat (frequency toks (fst e))) c.

(** The degradation of enrichment read as one rule: without the oracle,
    or on an empty text, the score is 0.0, the label neutral and the
    keyword list empty. *)
Definition degrades_fully {DT : DateTimeLib} (O : sentiment_oracle)
  (article : NewsArticle) : Prop :=
  HAS_TEXTBLOB O = false \/ Enricher.full_text article = "" ->
  exists enriched,
    Enricher.process_article O article = Ok enriched
    /\ sentiment_score enriched = 0%float
    /\ sentiment_label enriched = "neutral"
    /\ keywords enriched = [].

(** A [publishedAt] member that is a string [fromisoformat] rejects. *)
Definition malformed_date {DT : DateTimeLib} (item : Fetcher.raw_item) : Prop :=
  exists text,
    Fetcher.dict_get "publishedAt" (Fetcher.members item) = Some (Some text)
    /\ fromisoformat (replace_char "Z"%char "+00:00" text) = None.

(** The date rule read over every item of the payload: one malformed date
    anywhere fails the call. *)
Definition fails_on_any_malformed_date {DT : DateTimeLib}
  (items : list Fetcher.raw_item) : Prop :=
  (exists item, In item items /\ malformed_date item) ->
  exists e, Fetcher.fetch_news (Fetcher.ok_reply items) = Raise e.

End Spec.

(* ================================================================== *)
(** ** Sample data *)
(* ================================================================== *)

Module Samples.

(** A [DateTimeLib] for examples: it parses the timestamps the News API
    sends, [YYYY-MM-DDTHH:MM:SS+HH:MM], and keeps them as text; for a
    string of another shape it gives the message Python gives. *)
Fixpoint matches_shape (shape s : string) : bool :=
  match shape, s with
  | EmptyString, EmptyString => true
  | String p shape', String c s' =>
      (if Ascii.eqb p "d" then in_range 48 57 (code c) else Ascii.eqb p c)
      && matches_shape shape' s'
  | _, _ => false
  end.

#[local] Instance iso_text : DateTimeLib := {|
  datetime := string;
  fromisoformat := fun s =>
    if matches_shape "dddd-dd-ddTdd:dd:dd+dd:dd" s then Some s else None;
  fromisoformat_error := fun s => "Invalid isoformat string: '" ++ s ++ "'";
  isoformat := fun dt => dt
|}.

(** TextBlob missing, TextBlob failing, and TextBlob answering 0.5. *)
Definition no_textblob : sentiment_oracle :=
  {| HAS_TEXTBLOB := false;
     polarity := fun _ => Raise (OracleError "TextBlob is not installed") |}.

Definition failing_textblob : sentiment_oracle :=
  {| HAS_TEXTBLOB := true;
     polarity := fun _ => Raise (OracleError "missing corpus") |}.

Definition cheerful_textblob : sentiment_oracle :=
  {| HAS_TEXTBLOB := true; polarity := fun _ => Ok 0.5%float |}.

Definition article_at (u : string) (t : string) : NewsArticle :=
  new_article (Some t) (Some "Stocks gained") (Some u) (Some "Wire")
              "2024-05-01T10:00:00+00:00" None (Some "").

Definition markets_article : NewsArticle :=
  article_at "https://example.org/markets" "Markets rallied".

Definition headline : string :=
  "The Markets Rallied As Markets Gained Momentum".

(** A removed item with a date that does not parse, a regular item, and
    a regular item with a date that does not parse. *)
Definition removed_item : Fetcher.raw_item :=
  {| Fetcher.members :=
       [ ("title", Some "[Removed]"); ("description", Some "[Removed]");
         ("url", Some "https://removed.com");
         ("publishedAt", Some "not-a-date"); ("content", Some "[Removed]") ];
     Fetcher.source_member := Some (Some [("id", None); ("name", Some "[Removed]")]) |}.

Definition markets_item : Fetcher.raw_item :=
  {| Fetcher.members :=
       [ ("title", Some "Markets rallied"); ("description", Some "Stocks gained");
         ("url", Some "https://example.org/markets");
         ("urlToImage", None);
         ("publishedAt", Some "2024-05-01T10:00:00Z"); ("content", Some "") ];
     Fetcher.source_member := Some (Some [("id", None); ("name", Some "Wire")]) |}.

Definition undated_item : Fetcher.raw_item :=
  {| Fetcher.members :=
       [ ("title", Some "Rates held"); ("description", None);
         ("url", Some "https://example.org/rates");
         ("publishedAt", Some "yesterday"); ("content", None) ];
     Fetcher.source_member := Some (Some [("id", None); ("name", Some "Wire")]) |}.

(** The same url under two titles, and another url. *)
Definition old_markets : NewsArticle :=
  article_at "https://example.org/markets" "Markets slipped".

Definition other_article : NewsArticle :=
  article_at "https://example.org/rates" "Rates held".

(** A store that holds one bookmarked article. *)
Definition bookmarked_row : Store.article_row :=
  {| Store.id := 1; Store.r_title := "Markets rallied";
     Store.r_description := Some "Stocks gained";
     Store.r_content := Some "";
     Store.r_url := Some "https://example.org/markets";
     Store.r_source := Some "Wire";
     Store.r_published_at := Some "2024-05-01T10:00:00+00:00";
     Store.r_image_url := None;
     Store.r_sentiment_score := 0%float;
     Store.r_sentiment_label := "neutral";
     Store.r_keywords := Some "markets,rallied,stocks,gained";
     Store.r_category := None;
     Store.bookmarked := 1;
     Store.created_at := 10 |}.

Definition bookmarked_store : Store.database :=
  {| Store.articles := [bookmarked_row]; Store.articles_seq := 1;
     Store.searches := []; Store.searches_seq := 0 |}.

(** Six searches, one second apart, as [save_search_query] records them. *)
Definition six_searches : Store.database :=
  fold_left (fun db qt => Store.save_search_query db (fst qt) (snd qt))
            [ ("ai", 1%Z); ("ai", 2%Z); ("space", 3%Z);
              ("ai", 4%Z); ("moon", 5%Z); ("space", 6%Z) ]
            Store.setup_database.

(** Six distinct searches, then the first one again. *)
Definition seven_searches : Store.database :=
  fold_left (fun db qt => Store.save_search_query db (fst qt) (snd qt))
            [ ("a", 1%Z); ("b", 2%Z); ("c", 3%Z); ("d", 4%Z);
              ("e", 5%Z); ("f", 6%Z); ("a", 7%Z) ]
            Store.setup_database.

(** Articles whose url, or title, is [None]. *)
Definition no_url_article (t : string) : NewsArticle :=
  new_article (Some t) (Some "") None (Some "Wire")
              "2024-05-01T10:00:00+00:00" None (Some "").

Definition untitled_article : NewsArticle :=
  new_article None (Some "") (Some "https://example.org/markets") (Some "Wire")
              "2024-05-01T10:00:00+00:00" None (Some "").

End Samples.

(* ================================================================== *)
(** ** More of Python's [str] *)
(* ================================================================== *)

Module Text.

(** [s.lstrip()], [s.rstrip()] and [s.strip()]. *)
Fixpoint lstrip (s : string) : string :=
  match s with
  | EmptyString => EmptyString
  | String c s' => if isspace c then lstrip s' else s
  end.

Fixpoint rstrip (s : string) : string :=
  match s with
  | EmptyString => EmptyString
  | String c s' =>
      match rstrip s' with
      | EmptyString => if isspace c then EmptyString else String c EmptyString
      | r => String c r
      end
  end.

Definition strip (s : string) : string := rstrip (lstrip s).

(** [s.split(sep)] for a one-character [sep]: the pieces between the
    separators, empty ones included; never the empty list. *)
Fixpoint split_on (sep : ascii) (s : string) : list string :=
  match s with
  | EmptyString => [EmptyString]
  | String c s' =>
      if Ascii.eqb c sep then EmptyString :: split_on sep s'
      else match split_on sep s' with
           | piece :: pieces => String c piece :: pieces
           | [] => [String c EmptyString]
           end
  end.

(** Every character of [s] passes [p]. *)
Fixpoint forall_chars (p : ascii -> bool) (s : string) : bool :=
  match s with
  | EmptyString => true
  | String c s' => p c && forall_chars p s'
  end.

(** [str(n)] for a length. *)
Definition str_of_nat (n : nat) : string :=
  DecimalString.NilZero.string_of_uint (Nat.to_uint n).

End Text.

(* ================================================================== *)
(** ** Bookmarks: [load_bookmarks] and [clear_bookmarks] *)
(* ================================================================== *)

Module Bookmarks.
Import Store.

(** How the [keywords] column is read back:
    [text.split(',') if text else []]. *)
Definition stored_keywords (column : option string) : list string :=
  if truthy column then Text.split_on "," (str column) else [].

(** The sorter of [ORDER BY created_at DESC]: equal keys in scan order. *)
Fixpoint created_insert (r : article_row) (l : list article_row)
  : list article_row :=
  match l with
  | [] => [r]
  | y :: l' =>
      if (created_at y <=? created_at r)%Z then r :: y :: l'
      else y :: created_insert r l'
  end.

Fixpoint order_by_created_desc (rows : list article_row) : list article_row :=
  match rows with
  | [] => []
  | r :: rest => created_insert r (order_by_created_desc rest)
  end.

(** [SELECT ... FROM articles WHERE bookmarked = 1 ORDER BY created_at DESC]. *)
Definition select_bookmarked (db : database) : list article_row :=
  order_by_created_desc (filter (fun r => (bookmarked r =? 1)%Z) (articles db)).

(** [UPDATE articles SET bookmarked = 0 WHERE bookmarked = 1]. *)
Definition unbookmark_all (db : database) : database :=
  with_articles db
    (map (fun r => if (bookmarked r =? 1)%Z then set_bookmarked 0 r else r)
         (articles db))
    (articles_seq db).

Section Load.
Context {DT : DateTimeLib}.

(** The article object [load_bookmarks] builds from one row. *)
Definition article_of_row (r : article_row) : result NewsArticle :=
  match r_published_at r with
  | None => Raise (TypeError "fromisoformat: argument must be str")
  | Some text =>
      match fromisoformat text with
      | None => Raise (ValueError (fromisoformat_error text))
      | Some dt =>
          Ok {| title := Some (r_title r);
                description := Some (or_else (r_description r) "");
                url := r_url r;
                source := r_source r;
                published_at := dt;
                image_url := None;
                content := None;
                sentiment_score := r_sentiment_score r;
                sentiment_label := r_sentiment_label r;
                keywords := stored_keywords (r_keywords r) |}
      end
  end.

(** The loop over the rows: one card per row, until a row raises. *)
Fixpoint load_cards (rows : list article_row)
  : list NewsArticle * option exn :=
  match rows with
  | [] => ([], None)
  | r :: rest =>
      match article_of_row r with
      | Raise e => ([], Some e)
      | Ok article =>
          let (cards, failure) := load_cards rest in (article :: cards, failure)
      end
  end.

(** What [load_bookmarks] leaves on the Bookmarks tab: the count label,
    the cards, and the error box when a row raised. *)
Record bookmarks_tab : Type := {
  count_label : string;
  cards : list NewsArticle;
  failure : option dialog
}.

Definition load_bookmarks (db : database) : bookmarks_tab :=
  let bookmarks := select_bookmarked db in
  let (cards, raised) := load_cards bookmarks in
  {| count_label := Text.str_of_nat (length bookmarks) ++ " bookmarks";
     cards := cards;
     failure :=
       match raised with
       | None => None
       | Some e =>
           Some (showerror "Error"
                   ("Failed to load bookmarks: " ++ exn_message e))
       end |}.

(** [clear_bookmarks]: [confirmed] is the answer to the yes/no box.  The
    tab is reloaded, then the success box is shown. *)
Definition clear_bookmarks (confirmed : bool) (db : database)
  : database * option (bookmarks_tab * dialog) :=
  if confirmed
  then let db' := unbookmark_all db in
       (db', Some (load_bookmarks db',
                   showinfo "Success" "All bookmarks cleared!"))
  else (db, None).

End Load.
End Bookmarks.

(* ================================================================== *)
(** ** Analytics: the Top Keywords block of [generate_analytics] *)
(* ================================================================== *)

Module Analytics.
Import Store.

(** Timestamps count seconds. *)
Definition thirty_days : Z := 30 * 86400.

(** [... FROM articles WHERE created_at >= datetime('now', '-30 days')]. *)
Definition last_30_days (db : database) (now : Z) : list article_row :=
  filter (fun r => (now - thirty_days <=? created_at r)%Z) (articles db).

(** The loop over [df['keywords'].dropna()]. *)
Definition all_keywords (rows : list article_row) : list string :=
  flat_map (fun r => if truthy (r_keywords r)
                     then Text.split_on "," (str (r_keywords r))
                     else [])
           rows.

(** The number of times [w] is listed in the [keywords] of [rows]. *)
Definition occurrences (rows : list article_row) (w : string) : nat :=
  count_occ string_dec (all_keywords rows) w.

(** [Counter(all_keywords).most_common(10)]; nothing is shown when the
    frame is empty or no row has keywords. *)
Definition top_keywords (db : database) (now : Z)
  : option (list (string * Z)) :=
  match all_keywords (last_30_days db now) with
  | [] => None
  | kws => Some (most_common 10 (count_words kws))
  end.

End Analytics.

(* ================================================================== *)
(** ** The two actions: [refresh_news] and [search_news] *)
(* ================================================================== *)

Module Gui.

(** A request parameter: text, or the page size. *)
Inductive param : Type :=
| PStr (s : string)
| PInt (n : Z).

Record request : Type := {
  endpoint : string;
  params : list (string * param)
}.

(** The [url] and [params] that [fetch_news] builds.  [week_ago] is the
    date seven days before today, as [strftime('%Y-%m-%d')] prints it. *)
Definition request_for (api_key : string) (query category : option string)
  (country : string) (page_size : Z) (week_ago : string) : request :=
  if truthy query
  then {| endpoint := "https://newsapi.org/v2/everything";
          params := [ ("apiKey", PStr api_key); ("q", PStr (str query));
                      ("language", PStr "en"); ("sortBy", PStr "publishedAt");
                      ("pageSize", PInt page_size); ("from", PStr week_ago) ] |}
  else {| endpoint := "https://newsapi.org/v2/top-headlines";
          params :=
            [ ("apiKey", PStr api_key); ("country", PStr country);
              ("pageSize", PInt page_size); ("language", PStr "en") ]
            ++ (if truthy category && negb (str category =? "all")
                then [("category", PStr (str category))]
                else []) |}.

Section Actions.
Context {DT : DateTimeLib}.

(** The News API as the program sees it. *)
Variable network : request -> Fetcher.http_reply.
Variable O : sentiment_oracle.

(** [fetch_news(api_key, query, category)] with the defaults
    [country="us"] and [page_size=50]. *)
Definition fetch_news_call (api_key : string) (query category : option string)
  (week_ago : string) : result (list NewsArticle) :=
  Fetcher.fetch_news (network (request_for api_key query category "us" 50 week_ago)).

(** [for article in articles: processed_articles.append(process_article(article))]. *)
Fixpoint process_all (arts : list NewsArticle) : result (list NewsArticle) :=
  match arts with
  | [] => Ok []
  | article :: rest =>
      bind (Enricher.process_article O article) (fun processed =>
      bind (process_all rest) (fun more => Ok (processed :: more)))
  end.

(** The part of the window's state the two actions read and write. *)
Record app : Type := {
  api_key : option string;
  is_loading : bool;
  category_var : string;
  search_var : string;
  current_articles : list NewsArticle;
  db : Store.database
}.

(** What an action puts on the screen, in order.  The last one is a
    scheduled callback that raises [NameError] on the variable [name]
    instead of showing anything: Tk reports it and goes on. *)
Inductive effect : Type :=
| display_articles (arts : list NewsArticle)
| display_search_results (arts : list NewsArticle) (query : string)
                         (recent : list string)
| hide_loading (status : string)
| showwarning (caption text : string)
| showerror (caption text : string)
| callback_name_error (name : string).

(** The [except] clause of the two worker threads:
    [root.after(0, self.hide_loading, "Error")], then
    [root.after(0, lambda: messagebox.showerror(..., f"...{str(e)}"))].
    The lambda runs once the worker has left the clause, where Python has
    unbound [e]: it raises [NameError] and shows no box. *)
Definition report_failure : list effect :=
  [ hide_loading "Error"; callback_name_error "e" ].

Definition finished (g : app) (current : list NewsArticle)
  (db' : Store.database) : app :=
  {| api_key := api_key g; is_loading := false;
     category_var := category_var g; search_var := search_var g;
     current_articles := current; db := db' |}.

(** [refresh_news], with the worker thread run to its end before the
    callbacks it scheduled. *)
Definition refresh_news (week_ago : string) (now : Z) (g : app)
  : app * list effect :=
  if is_loading g then (g, [])
  else if negb (truthy (api_key g))
  then (g, [showerror "Error" "Please set your News API key in Settings"])
  else
    let category := category_var g in
    let body :=
      bind (fetch_news_call (str (api_key g)) None
              (if category =? "all" then None else Some category) week_ago)
           (fun articles =>
      bind (process_all articles) (fun processed_articles =>
      Ok (processed_articles,
          Store.save_articles (db g) processed_articles (Some category) now)))
    in
    match body with
    | Ok (processed_articles, (db', saved_count)) =>
        (finished g processed_articles db',
         [ display_articles processed_articles;
           hide_loading ("Loaded "
                         ++ Text.str_of_nat (length processed_articles)
                         ++ " articles") ])
    | Raise e => (finished g (current_articles g) (db g), report_failure)
    end.

(** [search_news], with the worker thread run to its end before the
    callbacks it scheduled. *)
Definition search_news (week_ago : string) (now : Z) (g : app)
  : app * list effect :=
  let query := Text.strip (search_var g) in
  if query =? ""
  then (g, [showwarning "Warning" "Please enter a search query"])
  else if negb (truthy (api_key g))
  then (g, [showerror "Error" "Please set your News API key in Settings"])
  else
    let body :=
      bind (fetch_news_call (str (api_key g)) (Some query) None week_ago)
           (fun articles => process_all articles)
    in
    match body with
    | Ok processed_articles =>
        let db' := Store.save_search_query (db g) query now in
        (finished g (current_articles g) db',
         [ display_search_results processed_articles query
             (Store.load_recent_searches db');
           hide_loading ("Found "
                         ++ Text.str_of_nat (length processed_articles)
                         ++ " articles") ])
    | Raise e => (finished g (current_articles g) (db g), report_failure)
    end.

End Actions.
End Gui.

(* ================================================================== *)
(** ** What a fetched article owes to its item *)
(* ================================================================== *)

Module Built.
Import Fetcher.

Definition built_from {DT : DateTimeLib} (item : raw_item) (a : NewsArticle)
  : Prop :=
  title a = get (members item) "title"
  /\ description a = get_default (members item) "description" ""
  /\ dict_get "url" (members item) = Some (url a)
  /\ source_name item = Ok (source a)
  /\ (exists text,
        dict_get "publishedAt" (members item) = Some (Some text)
        /\ fromisoformat (replace_char "Z"%char "+00:00" text)
           = Some (published_at a))
  /\ image_url a = get (members item) "urlToImage"
  /\ content a = get_default (members item) "content" ""
  /\ sentiment_score a = 0%float
  /\ sentiment_label a = "neutral"
  /\ keywords a = [].

End Built.

(* ================================================================== *)
(** ** The states the store can reach *)
(* ================================================================== *)

Module Invariants.
Import Store.

(** The urls of a table, NULLs left out. *)
Definition urls (rows : list article_row) : list string :=
  flat_map (fun r => match r_url r with Some u => [u] | None => [] end) rows.

(** What the schema promises of the two tables: [url UNIQUE], rowids that
    grow and stay below the sequence, and a flag that is 0 or 1. *)
Record well_formed (db : database) : Prop := {
  sequences : (0 <= articles_seq db)%Z /\ (0 <= searches_seq db)%Z;
  unique_urls : NoDup (urls (articles db));
  article_ids : StronglySorted (fun a b => (id a < id b)%Z) (articles db);
  article_ids_bound :
    Forall (fun r => (0 < id r <= articles_seq db)%Z) (articles db);
  flags : Forall (fun r => bookmarked r = 0%Z \/ bookmarked r = 1%Z)
                 (articles db);
  search_ids : StronglySorted (fun a b => (s_id a < s_id b)%Z) (searches db);
  search_ids_bound :
    Forall (fun r => (0 < s_id r <= searches_seq db)%Z) (searches db)
}.

(** The flag an INSERT of this program writes: the default, 0 or 1. *)
Definition flag_ok (v : insert_values) : Prop :=
  v_bookmarked v = None \/ v_bookmarked v = Some 0%Z
  \/ v_bookmarked v = Some 1%Z.

Section Reach.
Context {DT : DateTimeLib}.

(** An article with a title: the ones an INSERT accepts. *)
Definition titled (a : NewsArticle) : bool :=
  match title a with Some _ => true | None => false end.

(** A database the program can produce: a new file, then any sequence of
    the five writing operations. *)
Inductive reachable : database -> Prop :=
| reach_setup : reachable setup_database
| reach_save db arts category now :
    reachable db -> reachable (fst (save_articles db arts category now))
| reach_toggle O db article now :
    reachable db -> reachable (fst (toggle_bookmark O db article now))
| reach_clear db confirmed :
    reachable db -> reachable (fst (Bookmarks.clear_bookmarks confirmed db))
| reach_search db query now :
    reachable db -> reachable (save_search_query db query now).

End Reach.
End Invariants.

(* ================================================================== *)
(** ** A sample window *)
(* ================================================================== *)

Module Scenes.
Import Samples.

(** A News API that answers top-headlines with a removed item and the
    markets item, and every search with the markets item. *)
Definition news_api (req : Gui.request) : Fetcher.http_reply :=
  if Gui.endpoint req =? "https://newsapi.org/v2/top-headlines"
  then Fetcher.ok_reply [removed_item; markets_item]
  else Fetcher.ok_reply [markets_item].

(** A News API that is down. *)
Definition no_network (req : Gui.request) : Fetcher.http_reply :=
  Fetcher.Failed (RequestException "Connection refused").

(** A window with a key, the category "all", a search box holding
    " mars " and the store with one bookmarked article. *)
Definition window : Gui.app (DT := iso_text) :=
  {| Gui.api_key := Some "key"; Gui.is_loading := false;
     Gui.category_var := "all"; Gui.search_var := " mars ";
     Gui.current_articles := []; Gui.db := bookmarked_store |}.

End Scenes.

(* ================================================================== *)
(** ** Properties of the Python helpers *)
(* ================================================================== *)

Section ListFacts.

Lemma StronglySorted_weaken {A} (R R' : A -> A -> Prop) (l : list A) :
  (forall a b, In a l -> In b l -> R a b -> R' a b) ->
  StronglySorted R l -> StronglySorted R' l.
Proof.
  intros Hsub Hs. induction Hs as [|a l Hs IH Hall]; constructor.
  - apply IH. intros x y Hx Hy. apply Hsub; now right.
  - rewrite Forall_forall in *. intros y Hy.
    apply Hsub; [now left | now right | now apply Hall].
Qed.

Lemma StronglySorted_snoc {A} (R : A -> A -> Prop) (l : list A) (x : A) :
  StronglySorted R l -> Forall (fun a => R a x) l ->
  StronglySorted R (l ++ [x]).
Proof.
  intros Hs. induction Hs as [|a l Hs IH Hall]; intros Hx; simpl.
  - repeat constructor.
  - inversion Hx; subst. constructor; [now apply IH|].
    apply Forall_app. split; [assumption | now constructor].
Qed.

Lemma StronglySorted_map {A B} (f : A -> B) (R : A -> A -> Prop)
  (R' : B -> B -> Prop) (l : list A) :
  (forall a b, In a l -> In b l -> R a b -> R' (f a) (f b)) ->
  StronglySorted R l -> StronglySorted R' (map f l).
Proof.
  intros Hsub Hs. induction Hs as [|a l Hs IH Hall]; simpl; constructor.
  - apply IH. intros x y Hx Hy. apply Hsub; now right.
  - rewrite Forall_forall in *. intros y Hy.
    apply in_map_iff in Hy. destruct Hy as [z [<- Hz]].
    apply Hsub; [now left | now right | now apply Hall].
Qed.

Lemma StronglySorted_NoDup {A} (R : A -> A -> Prop) (l : list A) :
  (forall a, ~ R a a) -> StronglySorted R l -> NoDup l.
Proof.
  intros Hirr Hs. induction Hs as [|a l Hs IH Hall]; constructor; auto.
  intros Hin. rewrite Forall_forall in Hall. exact (Hirr a (Hall a Hin)).
Qed.

End ListFacts.

(** *** The sort behind [most_common] *)

Section StableSort.
Import Spec.
Variable pos : string -> nat.

Lemma insert_desc_perm (x : string * Z) (l : list (string * Z)) :
  Permutation (insert_desc x l) (x :: l).
Proof.
  induction l as [|y l IH]; simpl.
  - reflexivity.
  - destruct (snd y <=? snd x)%Z.
    + reflexivity.
    + rewrite IH. apply perm_swap.
Qed.

Lemma sorted_desc_perm (l : list (string * Z)) : Permutation (sorted_desc l) l.
Proof.
  induction l as [|x l IH]; simpl.
  - reflexivity.
  - rewrite insert_desc_perm. now constructor.
Qed.

Lemma insert_desc_sorted (x : string * Z) (s : list (string * Z)) :
  StronglySorted (outranks pos) s -> Forall (entered_before pos x) s ->
  StronglySorted (outranks pos) (insert_desc x s).
Proof.
  intros Hs. induction Hs as [|y s Hs IH Hall]; intros Hx; simpl.
  - repeat constructor.
  - inversion Hx as [|? ? Hxy Hxs]; subst.
    destruct (snd y <=? snd x)%Z eqn:E.
    + apply Z.leb_le in E. constructor; [now constructor|].
      constructor.
      * unfold outranks, entered_before in *. lia.
      * rewrite Forall_forall in *. intros z Hz.
        specialize (Hall z Hz). specialize (Hxs z Hz).
        unfold outranks, entered_before in *. lia.
    + apply Z.leb_gt in E. constructor; [now apply IH|].
      eapply Permutation_Forall; [symmetry; apply insert_desc_perm|].
      constructor; [left; exact E | assumption].
Qed.

Lemma sorted_desc_sorted (l : list (string * Z)) :
  StronglySorted (entered_before pos) l -> StronglySorted (outranks pos) (sorted_desc l).
Proof.
  intros Hs. induction Hs as [|x l Hs IH Hall]; simpl.
  - constructor.
  - apply insert_desc_sorted; [assumption|].
    eapply Permutation_Forall; [symmetry; apply sorted_desc_perm | assumption].
Qed.

End StableSort.

(** *** [Counter(words)] *)

Section CounterFacts.
Import Spec.

Lemma first_seen_app_in (ws l : list string) (w : string) :
  In w ws -> first_seen (ws ++ l)%list w = first_seen ws w.
Proof.
  induction ws as [|t ws IH]; simpl; [tauto|].
  intros [->|H].
  - now rewrite String.eqb_refl.
  - destruct (t =? w); [reflexivity | now rewrite IH].
Qed.

Lemma first_seen_lt (ws : list string) (w : string) :
  In w ws -> (first_seen ws w < length ws)%nat.
Proof.
  induction ws as [|t ws IH]; simpl; [tauto|].
  intros H. destruct (t =? w) eqn:E; [lia|].
  apply String.eqb_neq in E. destruct H as [H|H]; [congruence|].
  specialize (IH H). lia.
Qed.

Lemma first_seen_new (ws : list string) (w : string) :
  ~ In w ws -> first_seen (ws ++ [w])%list w = length ws.
Proof.
  induction ws as [|t ws IH]; simpl; intros H.
  - now rewrite String.eqb_refl.
  - destruct (t =? w) eqn:E.
    + apply String.eqb_eq in E. tauto.
    + rewrite IH; tauto.
Qed.

Lemma counter_incr_cases (w : string) (c : Counter) :
  (~ In w (map fst c) /\ counter_incr w c = (c ++ [(w, 1%Z)])%list)
  \/ (exists c1 n c2, c = (c1 ++ (w, n) :: c2)%list
        /\ counter_incr w c = (c1 ++ (w, (n + 1)%Z) :: c2)%list
        /\ ~ In w (map fst c1)).
Proof.
  induction c as [|[k n] c IH]; simpl.
  - left. split; [tauto | reflexivity].
  - destruct (k =? w) eqn:E.
    + apply String.eqb_eq in E. subst k. right. exists [], n, c. simpl. tauto.
    + apply String.eqb_neq in E. destruct IH as [[Hn Heq]|[c1 [m [c2 [H1 [H2 H3]]]]]].
      * left. split; [intros [?|?]; tauto | now rewrite Heq].
      * right. exists ((k, n) :: c1), m, c2. simpl. rewrite H1 at 1. rewrite H2.
        repeat split; try reflexivity. intros [?|?]; tauto.
Qed.

Lemma count_words_snoc (ws : list string) (w : string) :
  count_words (ws ++ [w])%list = counter_incr w (count_words ws).
Proof. unfold count_words. now rewrite fold_left_app. Qed.

Lemma frequency_snoc (ws : list string) (w k : string) :
  frequency (ws ++ [w])%list k
  = (frequency ws k + if string_dec w k then 1 else 0)%nat.
Proof.
  unfold frequency. rewrite count_occ_app. simpl.
  now destruct (string_dec w k).
Qed.

Lemma count_words_counts (toks : list string) :
  counts_of toks (count_words toks).
Proof.
  induction toks as [|w ws IH] using rev_ind.
  - repeat split; simpl; try constructor; tauto.
  - rewrite count_words_snoc. set (c := count_words ws) in *.
    destruct IH as [Hs [Hk Hc]].
    assert (Hnd : NoDup (map fst c)).
    { eapply StronglySorted_NoDup; [|exact Hs]. intros a. apply Nat.lt_irrefl. }
    assert (Hs' : StronglySorted
              (fun a b => (first_seen (ws ++ [w])%list a
                           < first_seen (ws ++ [w])%list b)%nat)
              (map fst c)).
    { eapply StronglySorted_weaken; [|exact Hs]. intros a b Ha Hb.
      apply Hk in Ha, Hb. now rewrite !first_seen_app_in. }
    destruct (counter_incr_cases w c) as [[Hn ->]|[c1 [n [c2 [H1 [H2 H3]]]]]].
    + assert (Hw : ~ In w ws) by (rewrite <- Hk; exact Hn).
      repeat split.
      * rewrite map_app. simpl. apply StronglySorted_snoc; [exact Hs'|].
        rewrite Forall_forall. intros a Ha. apply Hk in Ha.
        rewrite first_seen_app_in, first_seen_new by assumption.
        now apply first_seen_lt.
      * rewrite map_app, !in_app_iff, Hk. simpl. tauto.
      * rewrite map_app, !in_app_iff, Hk. simpl. tauto.
      * apply Forall_app. split.
        -- rewrite Forall_forall in *. intros e He. rewrite frequency_snoc.
           destruct (string_dec w (fst e)) as [->|_].
           ++ exfalso. apply Hn. now apply in_map.
           ++ rewrite Nat.add_0_r. now apply Hc.
        -- constructor; [|constructor]. simpl. rewrite frequency_snoc.
           destruct (string_dec w w); [|congruence].
           unfold frequency. rewrite (proj1 (count_occ_not_In string_dec ws w) Hw).
           reflexivity.
    + rewrite H2.
      assert (Hkeys : map fst (c1 ++ (w, (n + 1)%Z) :: c2)%list = map fst c).
      { rewrite H1, !map_app. reflexivity. }
      repeat split.
      * now rewrite Hkeys.
      * rewrite Hkeys, Hk, in_app_iff. tauto.
      * rewrite Hkeys, Hk, in_app_iff. intros [?|[<-|[]]]; [assumption|].
        apply Hk. rewrite H1, map_app, in_app_iff. simpl. tauto.
      * rewrite H1 in Hc, Hnd. rewrite map_app in Hnd. simpl in Hnd.
        apply NoDup_remove_2 in Hnd. rewrite in_app_iff in Hnd.
        apply Forall_app in Hc. destruct Hc as [Hc1 Hc2].
        inversion Hc2 as [|? ? Hwn Hc2']; subst. simpl in Hwn.
        apply Forall_app. split; [|constructor].
        -- rewrite Forall_forall in *. intros e He. rewrite frequency_snoc.
           destruct (string_dec w (fst e)) as [->|_].
           ++ exfalso. apply H3. now apply in_map.
           ++ rewrite Nat.add_0_r. now apply Hc1.
        -- simpl. rewrite frequency_snoc.
           destruct (string_dec w w); [|congruence]. lia.
        -- rewrite Forall_forall in *. intros e He. rewrite frequency_snoc.
           destruct (string_dec w (fst e)) as [->|_].
           ++ exfalso. apply Hnd. right. now apply in_map.
           ++ rewrite Nat.add_0_r. now apply Hc2'.
Qed.

End CounterFacts.

(* ================================================================== *)
(** ** Keyword extraction *)
(* ================================================================== *)

Section Keywords.
Import Spec Enricher.

Lemma StronglySorted_of_map {A B} (f : A -> B) (R : B -> B -> Prop)
  (l : list A) :
  StronglySorted R (map f l) -> StronglySorted (fun a b => R (f a) (f b)) l.
Proof.
  induction l as [|a l IH]; simpl; intros H; [constructor|].
  inversion H as [|? ? Hs Hall]; subst. constructor; [now apply IH|].
  rewrite Forall_forall in *. intros y Hy. apply Hall. now apply in_map.
Qed.

Lemma filter_chars_ext (f g : ascii -> bool) (s : string) :
  (forall c, f c = g c) -> filter_chars f s = filter_chars g s.
Proof.
  intros H. induction s as [|c s IH]; simpl; [reflexivity|].
  now rewrite H, IH.
Qed.

Lemma in_class_letter_or_space (c : ascii) :
  in_class c = is_letter c || isspace c.
Proof. reflexivity. Qed.

(** The words the code counts are the tokens of the specification. *)
Lemma words_are_tokens (stop : list string) (text : string) :
  filter (fun word => (3 <=? String.length word)%nat && negb (mem word stop))
         (split (re_sub_clean (lower text)))
  = tokens_with stop text.
Proof.
  unfold tokens_with, re_sub_clean.
  rewrite (filter_chars_ext _ _ _ in_class_letter_or_space).
  apply filter_ext. intros t. f_equal.
  now rewrite Nat.ltb_antisym, negb_involutive.
Qed.

Lemma keywords_with_unfold (stop : list string) (text : string) (n : Z) :
  keywords_with stop text n
  = firstn (Z.to_nat n)
      (map fst (sorted_desc (count_words (tokens_with stop text)))).
Proof.
  unfold keywords_with, most_common. rewrite words_are_tokens.
  destruct (text =? "") eqn:E.
  - apply String.eqb_eq in E. subst text. now rewrite firstn_nil.
  - now rewrite firstn_map.
Qed.

(** The full ranking behind [most_common]: every token once, ordered as
    the specification says. *)
Lemma ranking_sorted (toks : list string) :
  let ranked := map fst (sorted_desc (count_words toks)) in
  NoDup ranked
  /\ (forall w, In w ranked <-> In w toks)
  /\ StronglySorted (ranks_before toks) ranked.
Proof.
  intros ranked.
  destruct (count_words_counts toks) as [Hs [Hk Hc]].
  pose proof (sorted_desc_perm (count_words toks)) as Hp.
  assert (Hpk : Permutation ranked (map fst (count_words toks))).
  { unfold ranked. now apply Permutation_map. }
  repeat split.
  - eapply Permutation_NoDup; [symmetry; exact Hpk|].
    eapply StronglySorted_NoDup; [|exact Hs]. intros a. apply Nat.lt_irrefl.
  - intros H. apply Hk. eapply Permutation_in; [exact Hpk | exact H].
  - intros H. apply Hk in H. eapply Permutation_in; [symmetry; exact Hpk | exact H].
  - unfold ranked.
    apply StronglySorted_map with (R := outranks (first_seen toks)).
    + assert (Hc' : Forall (fun e => snd e = Z.of_nat (frequency toks (fst e)))
                           (sorted_desc (count_words toks))).
      { eapply Permutation_Forall; [symmetry; exact Hp | exact Hc]. }
      rewrite Forall_forall in Hc'. intros a b Ha Hb.
      unfold outranks, ranks_before.
      rewrite (Hc' a Ha), (Hc' b Hb).
      intros [H|[H1 H2]]; [left | right]; lia.
    + apply sorted_desc_sorted.
      exact (StronglySorted_of_map fst _ _ Hs).
Qed.

End Keywords.

(* ================================================================== *)
(** ** Claims about the enricher *)
(* ================================================================== *)

Section EnricherClaims.
Import Spec Enricher Samples.
#[local] Set Warnings "-inexact-float".

(** C5 (amended).  On "The Markets Rallied As Markets Gained Momentum"
    with N = 5, keyword extraction returns markets, rallied, gained,
    momentum: "markets" first with frequency 2, then the three words of
    frequency 1 in the order in which they are first seen.  The result is
    the same with the program's stop-word set and with the set {the, as}. *)
Theorem extract_keywords_headline :
  extract_keywords headline 5 = ["markets"; "rallied"; "gained"; "momentum"]
  /\ keywords_with ["the"; "as"] headline 5
     = ["markets"; "rallied"; "gained"; "momentum"]
  /\ frequency (tokens headline) "markets" = 2%nat
  /\ first_seen (tokens headline) "rallied" = 1%nat
  /\ first_seen (tokens headline) "gained" = 3%nat.
Proof. repeat split; vm_compute; reflexivity. Qed.

(** C5, as stated, fails: the result is not markets, gained, momentum,
    rallied, with either stop-word set. *)
Lemma extract_keywords_headline_not_as_stated :
  extract_keywords headline 5 <> ["markets"; "gained"; "momentum"; "rallied"]
  /\ keywords_with ["the"; "as"] headline 5
     <> ["markets"; "gained"; "momentum"; "rallied"].
Proof. split; vm_compute; discriminate. Qed.

(** C6.  For every text and every N, [extract_keywords] returns at most N
    tokens (5 by default): the first N of a ranking that lists, each once,
    the tokens the specification describes (lowercase, letters and
    whitespace only, split on whitespace, at least 3 characters, not a
    stop word), by descending frequency and, among equal frequencies, in
    first-encountered order. *)
Theorem extract_keywords_top_ranked (text : string) (n : Z) :
  default_num_keywords = 5%Z
  /\ (length (extract_keywords text n) <= Z.to_nat n)%nat
  /\ exists ranked,
       extract_keywords text n = firstn (Z.to_nat n) ranked
       /\ NoDup ranked
       /\ (forall w, In w ranked <-> In w (tokens text))
       /\ StronglySorted (ranks_before (tokens text)) ranked.
Proof.
  unfold extract_keywords. rewrite keywords_with_unfold.
  split; [reflexivity|]. split; [apply firstn_le_length|].
  eexists. split; [reflexivity|]. apply ranking_sorted.
Qed.

Lemma below_threshold_not_above (p : float) :
  (p <? -0.1)%float = true -> (0.1 <? p)%float = false.
Proof.
  rewrite !ltb_spec.
  change (Prim2SF (-0.1)) with (S754_finite true 7205759403792794 (-56)).
  change (Prim2SF 0.1) with (S754_finite false 7205759403792794 (-56)).
  destruct (Prim2SF p) as [s|s| |s m e]; try destruct s; simpl;
    try reflexivity; try discriminate.
Qed.

(** C7.  When the oracle returns the polarity [p] for a text,
    [analyze_sentiment] returns [p] with the label positive exactly when
    [p > 0.1], negative exactly when [p < -0.1] and neutral otherwise; the
    label is [classify p], which takes no threshold argument. *)
Theorem analyze_sentiment_thresholds (O : sentiment_oracle) (text : string)
  (p : float) :
  HAS_TEXTBLOB O = true -> text <> "" -> polarity O text = Ok p ->
  analyze_sentiment O text = Ok (p, classify p)
  /\ (classify p = "positive" <-> (0.1 <? p)%float = true)
  /\ (classify p = "negative" <-> (p <? -0.1)%float = true)
  /\ (classify p = "neutral"
      <-> (0.1 <? p)%float = false /\ (p <? -0.1)%float = false).
Proof.
  intros Hhas Htext Hp. split.
  - unfold analyze_sentiment. rewrite Hhas.
    apply String.eqb_neq in Htext. rewrite Htext. simpl.
    now rewrite Hp.
  - pose proof (below_threshold_not_above p) as Hex.
    unfold classify.
    destruct (0.1 <? p)%float eqn:Ea, (p <? -0.1)%float eqn:Eb;
      repeat split; intros; try discriminate; try reflexivity;
      try (specialize (Hex eq_refl); discriminate);
      try (destruct H; discriminate).
Qed.

(** C7 at the polarity 0.5 of a text that TextBlob scores. *)
Lemma analyze_sentiment_thresholds_witness :
  analyze_sentiment cheerful_textblob "good news" = Ok (0.5%float, classify 0.5)
  /\ (classify 0.5 = "positive" <-> (0.1 <? 0.5)%float = true)
  /\ (classify 0.5 = "negative" <-> (0.5 <? -0.1)%float = true)
  /\ (classify 0.5 = "neutral"
      <-> (0.1 <? 0.5)%float = false /\ (0.5 <? -0.1)%float = false).
Proof.
  apply (analyze_sentiment_thresholds cheerful_textblob "good news" 0.5%float).
  - reflexivity.
  - discriminate.
  - reflexivity.
Defined.

(** The thresholds themselves are neutral, and a failing oracle is
    caught. *)
Example classify_at_thresholds :
  classify 0.1 = "neutral" /\ classify (-0.1) = "neutral"
  /\ classify 0.11 = "positive" /\ classify (-0.11) = "negative"
  /\ classify nan = "neutral".
Proof. repeat split. Qed.

Example analyze_sentiment_catches :
  analyze_sentiment failing_textblob "good news" = Ok (0%float, "neutral").
Proof. reflexivity. Qed.

Context {DT : DateTimeLib}.

Lemma analyze_sentiment_returns (O : sentiment_oracle) (text : string) :
  exists sl, analyze_sentiment O text = Ok sl.
Proof.
  unfold analyze_sentiment.
  destruct (negb (HAS_TEXTBLOB O) || (text =? "")); [eexists; reflexivity|].
  destruct (polarity O text); simpl; eexists; reflexivity.
Qed.

Lemma process_article_returns (O : sentiment_oracle) (a : NewsArticle) :
  exists s l,
    process_article O a
    = Ok {| title := title a; description := description a;
            url := url a; source := source a;
            published_at := published_at a;
            image_url := image_url a; content := content a;
            sentiment_score := s; sentiment_label := l;
            keywords := extract_keywords (full_text a) default_num_keywords |}.
Proof.
  destruct (analyze_sentiment_returns O (full_text a)) as [[s l] Hs].
  exists s, l. unfold process_article. now rewrite Hs.
Qed.

(** C3 (amended).  [process_article] never raises; its sentiment score,
    label and keywords are functions of the title and the description
    alone, so a second run changes nothing; the keywords are
    [extract_keywords] of the text whatever the oracle does; when the
    oracle is missing or raises, the score is 0.0 and the label neutral;
    on the empty text [analyze_sentiment] gives 0.0 and neutral and
    [extract_keywords] gives the empty list. *)
Theorem process_article_total_pure (O : sentiment_oracle) (a b : NewsArticle) :
  exists a',
    process_article O a = Ok a'
    /\ process_article O a' = Ok a'
    /\ (title a = title b -> description a = description b ->
        exists b', process_article O b = Ok b'
          /\ sentiment_score b' = sentiment_score a'
          /\ sentiment_label b' = sentiment_label a'
          /\ keywords b' = keywords a')
    /\ keywords a' = extract_keywords (full_text a) 5
    /\ (HAS_TEXTBLOB O = false \/ (exists e, polarity O (full_text a) = Raise e) ->
        sentiment_score a' = 0%float /\ sentiment_label a' = "neutral")
    /\ analyze_sentiment O "" = Ok (0%float, "neutral")
    /\ (forall n, extract_keywords "" n = []).
Proof.
  destruct (analyze_sentiment_returns O (full_text a)) as [[s l] Hs].
  assert (Hrun : forall c, full_text c = full_text a ->
            process_article O c
            = Ok {| title := title c; description := description c;
                    url := url c; source := source c;
                    published_at := published_at c;
                    image_url := image_url c; content := content c;
                    sentiment_score := s; sentiment_label := l;
                    keywords := extract_keywords (full_text a) 5 |}).
  { intros c Hc. unfold process_article. rewrite Hc, Hs. reflexivity. }
  eexists. split; [apply Hrun; reflexivity|].
  split; [rewrite Hrun by reflexivity; reflexivity|].
  cbn [title description sentiment_score sentiment_label keywords].
  split.
  { intros Ht Hd. eexists. split.
    - apply Hrun. unfold full_text. now rewrite Ht, Hd.
    - repeat split. }
  split; [reflexivity|].
  split.
  { intros H. revert Hs. unfold analyze_sentiment.
    destruct H as [-> | [e ->]]; simpl.
    - intros [= <- <-]. split; reflexivity.
    - destruct (negb (HAS_TEXTBLOB O) || (full_text a =? ""));
        intros [= <- <-]; split; reflexivity. }
  split.
  - unfold analyze_sentiment. simpl. now rewrite orb_true_r.
  - reflexivity.
Qed.

End EnricherClaims.

(** C3, as stated, fails: without TextBlob the sample article still gets
    its keywords. *)
Lemma degrades_fully_fails :
  HAS_TEXTBLOB Samples.no_textblob = false
  /\ (exists enriched,
        Enricher.process_article Samples.no_textblob Samples.markets_article
        = Ok enriched
        /\ sentiment_score enriched = 0%float
        /\ sentiment_label enriched = "neutral"
        /\ keywords enriched = ["markets"; "rallied"; "stocks"; "gained"])
  /\ ~ Spec.degrades_fully Samples.no_textblob Samples.markets_article.
Proof.
  assert (Hrun : exists enriched,
             Enricher.process_article Samples.no_textblob Samples.markets_article
             = Ok enriched
             /\ sentiment_score enriched = 0%float
             /\ sentiment_label enriched = "neutral"
             /\ keywords enriched = ["markets"; "rallied"; "stocks"; "gained"]).
  { eexists. split; [reflexivity|]. repeat split. }
  split; [reflexivity|]. split; [exact Hrun|].
  intros H. destruct (H (or_introl eq_refl)) as [e [He [_ [_ Hk]]]].
  destruct Hrun as [e' [He' [_ [_ Hk']]]].
  rewrite He' in He. injection He as <-.
  rewrite Hk' in Hk. discriminate Hk.
Qed.

(* ================================================================== *)
(** ** Claims about the fetcher *)
(* ================================================================== *)

Section FetcherClaims.
Import Fetcher.
Context {DT : DateTimeLib}.

Lemma collect_filter (items : list raw_item) :
  collect items = collect (filter has_usable_title items).
Proof.
  induction items as [|item rest IH]; simpl; [reflexivity|].
  destruct (has_usable_title item) eqn:E; simpl.
  - now rewrite E, IH.
  - exact IH.
Qed.

Lemma build_article_title (item : raw_item) (a : NewsArticle) :
  build_article item = Ok a -> title a = get (members item) "title".
Proof.
  unfold build_article, subscript, get.
  destruct (dict_get "title" (members item)); simpl; [|discriminate].
  destruct (dict_get "url" (members item)); simpl; [|discriminate].
  destruct (source_name item); simpl; [|discriminate].
  destruct (parse_published_at item); simpl; [|discriminate].
  now intros [= <-].
Qed.

Lemma collect_titles (items : list raw_item) (arts : list NewsArticle) :
  collect items = Ok arts ->
  map title arts
  = map (fun item => get (members item) "title")
        (filter has_usable_title items).
Proof.
  revert arts. induction items as [|item rest IH]; simpl; intros arts H.
  - now inversion H.
  - destruct (has_usable_title item); [|now apply IH].
    destruct (build_article item) as [a|] eqn:Ea; simpl in H; [|discriminate].
    destruct (collect rest) as [more|]; simpl in H; [|discriminate].
    inversion H; subst. simpl.
    now rewrite (build_article_title _ _ Ea), (IH more eq_refl).
Qed.

Lemma unusable_title_iff (item : raw_item) :
  has_usable_title item = false
  <-> dict_get "title" (members item) = None
      \/ dict_get "title" (members item) = Some None
      \/ dict_get "title" (members item) = Some (Some "")
      \/ dict_get "title" (members item) = Some (Some "[Removed]").
Proof.
  unfold has_usable_title, get, truthy.
  destruct (dict_get "title" (members item)) as [[t|]|]; simpl.
  - destruct (String.eqb_spec t ""), (String.eqb_spec t "[Removed]");
      simpl; split; intros H; subst; auto;
      try discriminate; decompose [or] H; congruence.
  - split; auto.
  - split; auto.
Qed.

Lemma fetch_news_ok_reply (items : list raw_item) :
  fetch_news (ok_reply items) = try_except (collect items) fetch_handler.
Proof. reflexivity. Qed.

Lemma build_article_raises (item : raw_item) (e : exn) :
  build_article item = Raise e -> raised_by_item e.
Proof.
  unfold build_article, subscript, parse_published_at, source_name, subscript.
  destruct (dict_get "title" (members item)); simpl; [|now intros [= <-]].
  destruct (dict_get "url" (members item)); simpl; [|now intros [= <-]].
  destruct (source_member item) as [[src|]|]; simpl; try now intros [= <-].
  destruct (dict_get "name" src); simpl; [|now intros [= <-]].
  destruct (dict_get "publishedAt" (members item)) as [[text|]|]; simpl;
    try now intros [= <-].
  destruct (fromisoformat _); simpl; [discriminate | now intros [= <-]].
Qed.

Lemma collect_raises (items : list raw_item) (e : exn) :
  collect items = Raise e -> raised_by_item e.
Proof.
  induction items as [|item rest IH]; simpl; [discriminate|].
  destruct (has_usable_title item); [|exact IH].
  destruct (build_article item) eqn:Ea; simpl.
  - destruct (collect rest); simpl; [discriminate|].
    intros [= <-]. now apply IH.
  - intros [= <-]. now apply build_article_raises in Ea.
Qed.

Lemma fetch_handler_item_error (e : exn) :
  raised_by_item e ->
  fetch_handler e = Raise (Exception ("Error fetching news: " ++ exn_message e)).
Proof. destruct e; simpl; tauto. Qed.

(** A kept item with a malformed date makes [collect] raise. *)
Lemma collect_malformed (pre post : list raw_item) (item : raw_item) :
  has_usable_title item = true -> Spec.malformed_date item ->
  exists e, collect (pre ++ item :: post) = Raise e.
Proof.
  intros Hkeep [text [Hget Hbad]].
  induction pre as [|x pre IH]; simpl.
  - rewrite Hkeep.
    assert (Hb : exists e, build_article item = Raise e).
    { unfold build_article.
      destruct (subscript (members item) "title"); simpl; [|eauto].
      destruct (subscript (members item) "url"); simpl; [|eauto].
      destruct (source_name item); simpl; [|eauto].
      unfold parse_published_at, subscript. rewrite Hget. simpl.
      rewrite Hbad. simpl. eauto. }
    destruct Hb as [e ->]. simpl. eauto.
  - destruct IH as [e He]. rewrite He.
    destruct (has_usable_title x); [|eauto].
    destruct (build_article x); simpl; eauto.
Qed.

(** When everything before the date is in place, the failure is the
    parsing error. *)
Lemma collect_malformed_first (pre post : list raw_item) (item : raw_item)
  (text : string) (good : list NewsArticle) :
  collect pre = Ok good ->
  has_usable_title item = true ->
  dict_get "url" (members item) <> None ->
  (exists name, source_name item = Ok name) ->
  dict_get "publishedAt" (members item) = Some (Some text) ->
  fromisoformat (replace_char "Z"%char "+00:00" text) = None ->
  collect (pre ++ item :: post)
  = Raise (ValueError
             (fromisoformat_error (replace_char "Z"%char "+00:00" text))).
Proof.
  intros Hpre Hkeep Hurl [name Hname] Hget Hbad. revert good Hpre.
  induction pre as [|x pre IH]; simpl; intros good Hpre.
  - rewrite Hkeep. unfold build_article, subscript.
    assert (Ht : exists t, dict_get "title" (members item) = Some t).
    { unfold has_usable_title, get in Hkeep.
      destruct (dict_get "title" (members item)); [eauto | discriminate]. }
    destruct Ht as [t ->]. simpl.
    destruct (dict_get "url" (members item)); [|congruence]. simpl.
    rewrite Hname. simpl.
    unfold parse_published_at, subscript. rewrite Hget. simpl.
    now rewrite Hbad.
  - destruct (has_usable_title x).
    + destruct (build_article x); simpl in *; [|discriminate].
      destruct (collect pre) as [g|]; simpl in *; [|discriminate].
      now rewrite (IH g eq_refl).
    + now apply (IH good).
Qed.

(** C4.  An item has no usable title exactly when its title is absent,
    null, empty or "[Removed]".  Such items change nothing: [fetch_news]
    gives the same result, success or failure, as on the payload without
    them; a successful fetch returns one article per remaining item, in
    order and with that item's title; a payload of such items alone
    returns the empty list. *)
Theorem fetch_news_drops_unusable (items : list raw_item) :
  (forall item, has_usable_title item = false
     <-> dict_get "title" (members item) = None
         \/ dict_get "title" (members item) = Some None
         \/ dict_get "title" (members item) = Some (Some "")
         \/ dict_get "title" (members item) = Some (Some "[Removed]"))
  /\ fetch_news (ok_reply items)
     = fetch_news (ok_reply (filter has_usable_title items))
  /\ (forall arts, fetch_news (ok_reply items) = Ok arts ->
        map title arts
        = map (fun item => get (members item) "title")
              (filter has_usable_title items))
  /\ (filter has_usable_title items = [] -> fetch_news (ok_reply items) = Ok []).
Proof.
  split; [exact unusable_title_iff|].
  rewrite !fetch_news_ok_reply. split; [|split].
  - now rewrite <- collect_filter.
  - intros arts H. apply collect_titles.
    destruct (collect items) as [l|e] eqn:E; simpl in H.
    + exact H.
    + pose proof (fetch_handler_item_error e (collect_raises _ _ E)) as He.
      congruence.
  - intros H. now rewrite collect_filter, H.
Qed.

(** C10 (amended).  If an item that passes the title filter carries a
    malformed [publishedAt] string, the whole call fails and returns no
    article, whatever well-formed items precede or follow it; the failure
    is the date-parsing error, with the message [fromisoformat] gives for
    that string, when the items before it build and its own url and source
    name are present. *)
Theorem fetch_news_malformed_date
  (pre post : list raw_item) (item : raw_item) (text : string) :
  has_usable_title item = true ->
  dict_get "publishedAt" (members item) = Some (Some text) ->
  fromisoformat (replace_char "Z"%char "+00:00" text) = None ->
  (exists what,
     fetch_news (ok_reply (pre ++ item :: post))
     = Raise (Exception ("Error fetching news: " ++ what)))
  /\ (forall good,
        collect pre = Ok good ->
        dict_get "url" (members item) <> None ->
        (exists name, source_name item = Ok name) ->
        fetch_news (ok_reply (pre ++ item :: post))
        = Raise (Exception
                   ("Error fetching news: "
                    ++ fromisoformat_error
                         (replace_char "Z"%char "+00:00" text)))).
Proof.
  intros Hkeep Hget Hbad. rewrite fetch_news_ok_reply. split.
  - destruct (collect_malformed pre post item Hkeep) as [e He].
    { exists text. split; assumption. }
    exists (exn_message e). rewrite He. unfold try_except.
    apply fetch_handler_item_error. exact (collect_raises _ _ He).
  - intros good Hpre Hurl Hsrc.
    now rewrite (collect_malformed_first pre post item text good).
Qed.

End FetcherClaims.

(** C10 (amended) on a payload whose second item of three has the date
    "yesterday". *)
Lemma fetch_news_malformed_date_witness :
  (exists what,
     Fetcher.fetch_news (DT := Samples.iso_text)
       (Fetcher.ok_reply ([Samples.markets_item] ++ Samples.undated_item :: [Samples.markets_item]))
     = Raise (Exception ("Error fetching news: " ++ what)))
  /\ (forall good,
        Fetcher.collect (DT := Samples.iso_text) [Samples.markets_item] = Ok good ->
        Fetcher.dict_get "url" (Fetcher.members Samples.undated_item) <> None ->
        (exists name, Fetcher.source_name Samples.undated_item = Ok name) ->
        Fetcher.fetch_news (DT := Samples.iso_text)
          (Fetcher.ok_reply ([Samples.markets_item] ++ Samples.undated_item :: [Samples.markets_item]))
        = Raise (Exception
                   ("Error fetching news: Invalid isoformat string: 'yesterday'"))).
Proof.
  apply (fetch_news_malformed_date (DT := Samples.iso_text)
           [Samples.markets_item] [Samples.markets_item]
           Samples.undated_item "yesterday"); reflexivity.
Defined.

(** C10, as stated, fails: the removed item carries a date that does not
    parse, and the call returns the article of the other item. *)
Lemma fetch_news_skips_date_of_removed :
  In Samples.removed_item [Samples.removed_item; Samples.markets_item]
  /\ Spec.malformed_date (DT := Samples.iso_text) Samples.removed_item
  /\ Fetcher.fetch_news (DT := Samples.iso_text)
       (Fetcher.ok_reply [Samples.removed_item; Samples.markets_item])
     = Ok [Samples.markets_article]
  /\ ~ Spec.fails_on_any_malformed_date (DT := Samples.iso_text)
         [Samples.removed_item; Samples.markets_item].
Proof.
  assert (Hbad : Spec.malformed_date (DT := Samples.iso_text) Samples.removed_item).
  { exists "not-a-date". split; reflexivity. }
  assert (Hrun : Fetcher.fetch_news (DT := Samples.iso_text)
                   (Fetcher.ok_reply [Samples.removed_item; Samples.markets_item])
                 = Ok [Samples.markets_article]) by reflexivity.
  split; [now left|]. split; [exact Hbad|]. split; [exact Hrun|].
  intros H. destruct H as [e He].
  - exists Samples.removed_item. split; [now left | exact Hbad].
  - rewrite Hrun in He. discriminate He.
Qed.

(* ================================================================== *)
(** ** Claims about the store *)
(* ================================================================== *)

Section StoreClaims.
Import Store.
Context {DT : DateTimeLib}.

Lemma url_is_new_row (db : database) (t : string) (v : insert_values)
  (now : Z) (u : option string) :
  url_is u (new_row db t v now)
  = match u, v_url v with Some a, Some b => a =? b | _, _ => false end.
Proof. reflexivity. Qed.

Lemma filter_filter_disjoint {A} (f g : A -> bool) (l : list A) :
  (forall x, f x = true -> g x = false) -> filter f (filter g l) = [].
Proof.
  intros H. induction l as [|x l IH]; simpl; [reflexivity|].
  destruct (g x) eqn:Eg; simpl; [|exact IH].
  destruct (f x) eqn:Ef; [|exact IH].
  apply H in Ef. congruence.
Qed.

Lemma filter_filter_implied {A} (f g : A -> bool) (l : list A) :
  (forall x, f x = true -> g x = true) -> filter f (filter g l) = filter f l.
Proof.
  intros H. induction l as [|x l IH]; simpl; [reflexivity|].
  destruct (g x) eqn:Eg; simpl.
  - now rewrite IH.
  - destruct (f x) eqn:Ef; [|exact IH]. apply H in Ef. congruence.
Qed.

(** The replacing INSERT leaves exactly the new row under its url. *)
Lemma insert_or_replace_same (db : database) (v : insert_values) (now : Z)
  (t u : string) :
  v_title v = Some t -> v_url v = Some u ->
  exists db', insert_or_replace db v now = Executed db'
    /\ rows_at u db' = [new_row db t v now].
Proof.
  intros Ht Hu. unfold insert_or_replace. rewrite Ht. eexists.
  split; [reflexivity|]. unfold rows_at. cbn [articles with_articles].
  rewrite filter_app, filter_filter_disjoint.
  - cbn [filter app]. rewrite url_is_new_row, Hu, String.eqb_refl. reflexivity.
  - intros r Hr. rewrite Hu. now rewrite Hr.
Qed.

(** It leaves the rows of every other url alone. *)
Lemma insert_or_replace_other (db db' : database) (v : insert_values)
  (now : Z) (u : string) :
  v_url v <> Some u -> insert_or_replace db v now = Executed db' ->
  rows_at u db' = rows_at u db.
Proof.
  intros Hu. unfold insert_or_replace.
  destruct (v_title v) as [t|]; [|discriminate].
  intros [= <-]. unfold rows_at. cbn [articles with_articles].
  rewrite filter_app, filter_filter_implied.
  - cbn [filter]. rewrite url_is_new_row.
    destruct (v_url v) as [w|]; [|now rewrite app_nil_r].
    destruct (String.eqb_spec u w); [congruence | now rewrite app_nil_r].
  - intros r. unfold url_is. destruct (r_url r) as [w|]; [|discriminate].
    intros E. apply String.eqb_eq in E. subst w.
    destruct (v_url v) as [w|]; [|reflexivity].
    destruct (String.eqb_spec w u); [congruence | reflexivity].
Qed.

Lemma save_loop_app (db : database) (n : Z) (pre l : list NewsArticle)
  (category : option string) (now : Z) :
  save_loop db n (pre ++ l) category now
  = save_loop (fst (save_loop db n pre category now))
              (snd (save_loop db n pre category now)) l category now.
Proof.
  revert db n. induction pre as [|a pre IH]; simpl; intros db n; [reflexivity|].
  destruct (insert_or_replace db (save_values a category) now); apply IH.
Qed.

Lemma save_loop_keeps (u : string) (post : list NewsArticle) (db : database)
  (n : Z) (category : option string) (now : Z) :
  Forall (fun x => writes_url u x = false) post ->
  rows_at u (fst (save_loop db n post category now)) = rows_at u db.
Proof.
  intros H. revert db n. induction H as [|a post Ha _ IH]; simpl; intros db n.
  - reflexivity.
  - destruct (insert_or_replace db (save_values a category) now) as [db'|]
      eqn:E; rewrite IH; [|reflexivity].
    apply (insert_or_replace_other db db' (save_values a category) now u);
      [|exact E].
    cbn [save_values v_url]. intros Hu.
    unfold insert_or_replace in E. cbn [save_values v_title] in E.
    unfold writes_url in Ha. rewrite Hu in Ha.
    destruct (title a); [|discriminate E].
    now rewrite String.eqb_refl in Ha.
Qed.

(** After the loop, the url of the last article written under it holds
    exactly that article's row. *)
Lemma save_loop_last (u t : string) (pre post : list NewsArticle)
  (a : NewsArticle) (db : database) (n : Z) (category : option string)
  (now : Z) :
  url a = Some u -> title a = Some t ->
  Forall (fun x => writes_url u x = false) post ->
  rows_at u (fst (save_loop db n (pre ++ a :: post) category now))
  = [new_row (fst (save_loop db n pre category now)) t
             (save_values a category) now].
Proof.
  intros Hu Ht Hpost. rewrite save_loop_app. simpl.
  set (db1 := fst (save_loop db n pre category now)).
  destruct (insert_or_replace_same db1 (save_values a category) now t u Ht Hu)
    as [db' [-> Hrows]].
  now rewrite save_loop_keeps.
Qed.

Lemma last_writer (u : string) (arts : list NewsArticle) :
  existsb (writes_url u) arts = true ->
  exists pre b post, arts = (pre ++ b :: post)%list
    /\ writes_url u b = true
    /\ Forall (fun x => writes_url u x = false) post.
Proof.
  induction arts as [|x arts IH]; simpl; [discriminate|].
  destruct (existsb (writes_url u) arts) eqn:E.
  - intros _. destruct (IH eq_refl) as [pre [b [post [-> [Hb Hp]]]]].
    exists (x :: pre), b, post. auto.
  - rewrite orb_false_r. intros Hx. exists [], x, arts.
    repeat split; auto. rewrite Forall_forall. intros w Hw.
    destruct (writes_url u w) eqn:Ew; [|reflexivity].
    assert (existsb (writes_url u) arts = true)
      by (apply existsb_exists; eauto).
    congruence.
Qed.


Lemma not_url_not_writer (u : string) (post : list NewsArticle) :
  Forall (fun x => url x <> Some u) post ->
  Forall (fun x => writes_url u x = false) post.
Proof.
  apply Forall_impl. intros x Hx. unfold writes_url.
  destruct (url x) as [v|]; [|reflexivity].
  destruct (title x); [|reflexivity].
  destruct (String.eqb_spec v u); [congruence | reflexivity].
Qed.

Lemma writer_fields (u : string) (a : NewsArticle) :
  writes_url u a = true -> url a = Some u /\ exists t, title a = Some t.
Proof.
  unfold writes_url. destruct (url a) as [v|]; [|discriminate].
  destruct (title a) as [t|]; [|discriminate].
  intros E. apply String.eqb_eq in E. subst. eauto.
Qed.

(** C1.  Two [save_articles] calls each carry an article with the url
    [u]: after the first call the store holds exactly one row for [u],
    with the first title; after the second call it holds exactly one row
    for [u], and that row has the title and every other written field of
    the second article. *)
Theorem save_articles_last_write_wins
  (db : database) (pre1 post1 pre2 post2 : list NewsArticle)
  (a1 a2 : NewsArticle) (c1 c2 : option string) (now1 now2 : Z)
  (u t1 t2 : string) :
  url a1 = Some u -> title a1 = Some t1 ->
  url a2 = Some u -> title a2 = Some t2 ->
  Forall (fun x => url x <> Some u) post1 ->
  Forall (fun x => url x <> Some u) post2 ->
  let db1 := fst (save_articles db (pre1 ++ a1 :: post1) c1 now1) in
  let db2 := fst (save_articles db1 (pre2 ++ a2 :: post2) c2 now2) in
  (exists row1, rows_at u db1 = [row1] /\ r_title row1 = t1)
  /\ (exists i,
        rows_at u db2 =
        [ {| id := i; r_title := t2;
             r_description := description a2;
             r_content := content a2;
             r_url := Some u;
             r_source := source a2;
             r_published_at := Some (isoformat (published_at a2));
             r_image_url := image_url a2;
             r_sentiment_score := sentiment_score a2;
             r_sentiment_label := sentiment_label a2;
             r_keywords := Some (join "," (keywords a2));
             r_category := Some (or_else c2 "general");
             bookmarked := 0;
             created_at := now2 |} ]).
Proof.
  intros Hu1 Ht1 Hu2 Ht2 Hp1 Hp2 db1 db2. split.
  - eexists. split.
    + apply (save_loop_last u t1); auto using not_url_not_writer.
    + reflexivity.
  - eexists. unfold db2, save_articles.
    rewrite (save_loop_last u t2) by auto using not_url_not_writer.
    unfold new_row. cbn [save_values v_description v_content v_url v_source
      v_published_at v_image_url v_sentiment_score v_sentiment_label
      v_keywords v_category v_bookmarked]. rewrite Hu2. reflexivity.
Qed.

(** C2.  A bookmarked row does not survive an upsert of its url: after
    [save_articles] with an article of that url, the url has exactly one
    row, its flag is 0, and the row that was bookmarked is gone. *)
Theorem save_articles_resets_bookmark
  (db : database) (r0 : article_row) (arts : list NewsArticle)
  (a : NewsArticle) (category : option string) (now : Z) (u t : string) :
  In r0 (articles db) -> r_url r0 = Some u -> bookmarked r0 = 1%Z ->
  In a arts -> url a = Some u -> title a = Some t ->
  let db' := fst (save_articles db arts category now) in
  (exists row, rows_at u db' = [row] /\ bookmarked row = 0%Z)
  /\ (forall r, In r (articles db') -> r_url r = Some u -> bookmarked r = 0%Z)
  /\ ~ In r0 (articles db').
Proof.
  intros Hr0 Hur0 Hb0 Ha Hu Ht db'.
  assert (Hex : existsb (writes_url u) arts = true).
  { apply existsb_exists. exists a. split; [assumption|].
    unfold writes_url. now rewrite Hu, Ht, String.eqb_refl. }
  destruct (last_writer u arts Hex) as [pre [b [post [-> [Hb Hp]]]]].
  destruct (writer_fields u b Hb) as [Hub [tb Htb]].
  assert (Hrows : exists row, rows_at u db' = [row] /\ bookmarked row = 0%Z).
  { eexists. split; [apply (save_loop_last u tb); assumption | reflexivity]. }
  assert (Hall : forall r, In r (articles db') -> r_url r = Some u ->
                           bookmarked r = 0%Z).
  { intros r Hr Hur. destruct Hrows as [row [Hrow Hz]].
    assert (Hin : In r (rows_at u db')).
    { apply filter_In. split; [assumption|].
      unfold url_is. now rewrite Hur, String.eqb_refl. }
    rewrite Hrow in Hin. destruct Hin as [<-|[]]. exact Hz. }
  split; [exact Hrows|]. split; [exact Hall|].
  intros Hin. specialize (Hall r0 Hin Hur0). lia.
Qed.

Lemma select_by_url_update (db : database) (b : Z) (u : option string) :
  select_by_url (update_bookmarked db b u) u
  = option_map (set_bookmarked b) (select_by_url db u).
Proof.
  unfold select_by_url, update_bookmarked. cbn [articles with_articles].
  induction (articles db) as [|r rows IH]; simpl; [reflexivity|].
  destruct (url_is u r) eqn:E.
  - replace (url_is u (set_bookmarked b r)) with (url_is u r) by reflexivity.
    now rewrite E.
  - now rewrite E.
Qed.

Lemma find_none_existsb {A} (f : A -> bool) (l : list A) :
  find f l = None -> existsb f l = false.
Proof.
  induction l as [|x l IH]; simpl; [reflexivity|].
  destruct (f x); [discriminate | exact IH].
Qed.

Lemma find_snoc_new {A} (f : A -> bool) (l : list A) (x : A) :
  find f l = None -> f x = true -> find f (l ++ [x]) = Some x.
Proof.
  induction l as [|y l IH]; simpl; intros Hn Hx.
  - now rewrite Hx.
  - destruct (f y); [discriminate | now apply IH].
Qed.

Lemma toggle_existing (O : sentiment_oracle) (db : database)
  (a : NewsArticle) (now : Z) (row : article_row) :
  select_by_url db (url a) = Some row ->
  toggle_bookmark O db a now
  = (update_bookmarked db (1 - bookmarked row) (url a),
     showinfo "Bookmark"
       (if negb (1 - bookmarked row =? 0)%Z
        then "Article added to bookmarks!"
        else "Article removed from bookmarks!")).
Proof.
  intros H. unfold toggle_bookmark, toggle_body. rewrite H.
  now destruct (negb (1 - bookmarked row =? 0)%Z).
Qed.

(** C8.  For an article with url [u]: when no row has that url,
    [toggle_bookmark] adds one row for the article with the flag 1 and
    reports "added", and a second call on the new row sets the flag to 0
    and reports "removed"; when a row has that url, the call writes
    1 minus its flag (0 becomes 1, 1 becomes 0), keeps the number of rows
    and reports the new state. *)
Theorem toggle_bookmark_adds_then_flips
  (O : sentiment_oracle) (db : database) (a : NewsArticle) (now now' : Z)
  (u t : string) :
  url a = Some u -> title a = Some t ->
  (select_by_url db (Some u) = None ->
     exists row,
       toggle_bookmark O db a now
       = (with_articles db (articles db ++ [row]) (articles_seq db + 1),
          showinfo "Bookmark" "Article added to bookmarks!")
       /\ r_url row = Some u /\ r_title row = t /\ bookmarked row = 1%Z
       /\ select_by_url (fst (toggle_bookmark O db a now)) (Some u) = Some row
       /\ toggle_bookmark O (fst (toggle_bookmark O db a now)) a now'
          = (update_bookmarked (fst (toggle_bookmark O db a now)) 0 (Some u),
             showinfo "Bookmark" "Article removed from bookmarks!")
       /\ select_by_url
            (fst (toggle_bookmark O (fst (toggle_bookmark O db a now)) a now'))
            (Some u)
          = Some (set_bookmarked 0 row))
  /\ (forall row, select_by_url db (Some u) = Some row ->
        toggle_bookmark O db a now
        = (update_bookmarked db (1 - bookmarked row) (Some u),
           showinfo "Bookmark"
             (if negb (1 - bookmarked row =? 0)%Z
              then "Article added to bookmarks!"
              else "Article removed from bookmarks!"))
        /\ select_by_url (fst (toggle_bookmark O db a now)) (Some u)
           = Some (set_bookmarked (1 - bookmarked row) row)
        /\ length (articles (fst (toggle_bookmark O db a now)))
           = length (articles db)
        /\ (bookmarked row = 0%Z ->
            bookmarked (set_bookmarked (1 - bookmarked row) row) = 1%Z
            /\ snd (toggle_bookmark O db a now)
               = showinfo "Bookmark" "Article added to bookmarks!")
        /\ (bookmarked row = 1%Z ->
            bookmarked (set_bookmarked (1 - bookmarked row) row) = 0%Z
            /\ snd (toggle_bookmark O db a now)
               = showinfo "Bookmark" "Article removed from bookmarks!")).
Proof.
  intros Hu Ht. split.
  - intros Hnone.
    destruct (process_article_returns O a) as [s [l Hrun]].
    set (p := {| title := title a; description := description a;
                 url := url a; source := source a;
                 published_at := published_at a; image_url := image_url a;
                 content := content a; sentiment_score := s;
                 sentiment_label := l;
                 keywords := Enricher.extract_keywords (Enricher.full_text a)
                               Enricher.default_num_keywords |}) in *.
    set (row := new_row db t (bookmark_values p) now).
    assert (Hfirst : toggle_bookmark O db a now
              = (with_articles db (articles db ++ [row]) (articles_seq db + 1),
                 showinfo "Bookmark" "Article added to bookmarks!")).
    { unfold toggle_bookmark, toggle_body. rewrite Hu, Hnone, Hrun.
      cbn [bind]. unfold insert. cbn [bookmark_values v_title v_url p title url].
      rewrite Ht, Hu. fold (select_by_url db (Some u)) in Hnone.
      rewrite (find_none_existsb _ _ Hnone). reflexivity. }
    assert (Hrow : url_is (Some u) row = true).
    { unfold row. rewrite url_is_new_row.
      cbn [bookmark_values v_url p url]. rewrite Hu. apply String.eqb_refl. }
    assert (Hsel : select_by_url (fst (toggle_bookmark O db a now)) (Some u)
                   = Some row).
    { rewrite Hfirst. cbn [fst]. unfold select_by_url.
      cbn [articles with_articles]. now apply find_snoc_new. }
    exists row. split; [exact Hfirst|].
    split; [unfold row; cbn [new_row r_url bookmark_values v_url p url]; exact Hu|].
    split; [reflexivity|]. split; [reflexivity|].
    split; [exact Hsel|].
    assert (Hsecond :
      toggle_bookmark O (fst (toggle_bookmark O db a now)) a now'
      = (update_bookmarked (fst (toggle_bookmark O db a now)) 0 (Some u),
         showinfo "Bookmark" "Article removed from bookmarks!")).
    { rewrite <- Hu in Hsel |- *.
      rewrite (toggle_existing O _ a now' row Hsel). reflexivity. }
    split; [exact Hsecond|].
    rewrite Hsecond. cbn [fst]. rewrite select_by_url_update, Hsel. reflexivity.
  - intros row Hsel. rewrite <- Hu in Hsel |- *.
    rewrite (toggle_existing O db a now row Hsel). cbn [fst snd].
    split; [reflexivity|].
    split; [now rewrite select_by_url_update, Hsel|].
    split; [unfold update_bookmarked; cbn [articles with_articles];
            apply length_map|].
    split; intros Hb; rewrite Hb; split; reflexivity.
Qed.

End StoreClaims.

Section StoreWitnesses.
Import Store Samples.

(** C1 on an empty store: "Markets slipped", then "Markets rallied" under
    the same url. *)
Lemma save_articles_last_write_wins_witness :
  let u := "https://example.org/markets" in
  let db1 := fst (save_articles setup_database
                    ([] ++ old_markets :: [other_article]) None 10) in
  let db2 := fst (save_articles db1 ([other_article] ++ markets_article :: [])
                    (Some "business") 20) in
  map r_title (rows_at u db1) = ["Markets slipped"]
  /\ map r_title (rows_at u db2) = ["Markets rallied"]
  /\ map r_category (rows_at u db2) = [Some "business"].
Proof.
  intros u db1 db2.
  destruct (save_articles_last_write_wins (DT := iso_text)
              setup_database [] [other_article] [other_article] []
              old_markets markets_article None (Some "business") 10 20
              u "Markets slipped" "Markets rallied"
              eq_refl eq_refl eq_refl eq_refl)
    as [[row1 [H1 Ht1]] [i H2]].
  - constructor; [discriminate | constructor].
  - constructor.
  - fold db1 in H1. fold db1 db2 in H2. rewrite H1, H2.
    cbn [map r_title r_category]. rewrite Ht1. repeat split.
Defined.

(** C2 on the store that holds the bookmarked sample row. *)
Lemma save_articles_resets_bookmark_witness :
  let u := "https://example.org/markets" in
  let db' := fst (save_articles bookmarked_store [old_markets] None 20) in
  (exists row, rows_at u db' = [row] /\ bookmarked row = 0%Z)
  /\ (forall r, In r (articles db') -> r_url r = Some u -> bookmarked r = 0%Z)
  /\ ~ In bookmarked_row (articles db').
Proof.
  apply (save_articles_resets_bookmark (DT := iso_text)
           bookmarked_store bookmarked_row [old_markets] old_markets None 20
           "https://example.org/markets" "Markets slipped").
  - left. reflexivity.
  - reflexivity.
  - reflexivity.
  - left. reflexivity.
  - reflexivity.
  - reflexivity.
Defined.

(** C8 on an empty store: the first call adds the bookmarked row, the
    second clears its flag. *)
Lemma toggle_bookmark_adds_then_flips_witness :
  let u := "https://example.org/markets" in
  let first := toggle_bookmark no_textblob setup_database markets_article 10 in
  let second := toggle_bookmark no_textblob (fst first) markets_article 11 in
  select_by_url setup_database (Some u) = None
  /\ snd first = showinfo "Bookmark" "Article added to bookmarks!"
  /\ option_map bookmarked (select_by_url (fst first) (Some u)) = Some 1%Z
  /\ snd second = showinfo "Bookmark" "Article removed from bookmarks!"
  /\ option_map bookmarked (select_by_url (fst second) (Some u)) = Some 0%Z.
Proof.
  intros u first second.
  destruct (toggle_bookmark_adds_then_flips (DT := iso_text) no_textblob
              setup_database markets_article 10 11 u "Markets rallied"
              eq_refl eq_refl) as [Hadd _].
  destruct (Hadd eq_refl) as [row [H1 [_ [_ [Hb [Hs1 [H2 Hs2]]]]]]].
  fold first in H1, Hs1, H2, Hs2. fold second in Hs2.
  split; [reflexivity|].
  split; [now rewrite H1|].
  split; [rewrite Hs1; cbn [option_map]; now rewrite Hb|].
  split; [fold second in H2; now rewrite H2|].
  rewrite Hs2. reflexivity.
Defined.

(** C9, on the recorded searches ai, ai, space, ai, moon, space (one
    second apart): the query returns moon, space, ai, and not space, moon,
    ai.  DISTINCT keeps the first row of every query, so "space" is ranked
    by its first search (second 3) and not by its latest (second 6). *)
Theorem load_recent_searches_six :
  map s_query (searches six_searches)
  = ["ai"; "ai"; "space"; "ai"; "moon"; "space"]
  /\ map s_timestamp (searches six_searches) = [1; 2; 3; 4; 5; 6]%Z
  /\ map s_timestamp (distinct_scan [] (searches six_searches)) = [1; 3; 5]%Z
  /\ load_recent_searches six_searches = ["moon"; "space"; "ai"]
  /\ load_recent_searches six_searches <> ["space"; "moon"; "ai"].
Proof. repeat split; vm_compute; try reflexivity; discriminate. Qed.

(** With more than five distinct queries, the query searched last can be
    missing: "a" is ranked by second 1. *)
Example load_recent_searches_seven :
  load_recent_searches seven_searches = ["f"; "e"; "d"; "c"; "b"].
Proof. vm_compute. reflexivity. Qed.

(** Why the store claims ask for a url and a title: NULL urls never
    conflict, so both rows stay; a NULL title aborts the statement, so the
    article is skipped and not counted. *)
Example save_articles_null_url :
  map r_title
      (articles (fst (save_articles setup_database
                        [no_url_article "One"; no_url_article "Two"] None 10)))
  = ["One"; "Two"].
Proof. vm_compute. reflexivity. Qed.

Example save_articles_null_title :
  save_articles bookmarked_store [untitled_article] None 20
  = (bookmarked_store, 0%Z).
Proof. vm_compute. reflexivity. Qed.

Example save_articles_counts :
  snd (save_articles setup_database
         [old_markets; untitled_article; markets_article; other_article]
         None 10)
  = 3%Z.
Proof. vm_compute. reflexivity. Qed.

End StoreWitnesses.

(* ================================================================== *)
(** ** More about the enricher *)
(* ================================================================== *)

Section Characters.
Import Text.

Lemma forall_chars_app (p : ascii -> bool) (a b : string) :
  forall_chars p (a ++ b) = forall_chars p a && forall_chars p b.
Proof.
  induction a as [|c a IH]; simpl; [reflexivity|].
  now rewrite IH, andb_assoc.
Qed.

Lemma forall_chars_impl (p q : ascii -> bool) (s : string) :
  (forall c, p c = true -> q c = true) ->
  forall_chars p s = true -> forall_chars q s = true.
Proof.
  intros H. induction s as [|c s IH]; simpl; [reflexivity|].
  intros E. apply andb_true_iff in E. destruct E as [Ec Es].
  now rewrite (H c Ec), IH.
Qed.

Lemma lower_char_not_upper (c : ascii) :
  in_range 65 90 (code (lower_char c)) = false.
Proof. destruct c as [[] [] [] [] [] [] [] []]; reflexivity. Qed.

Lemma lower_no_upper (s : string) :
  forall_chars (fun c => negb (in_range 65 90 (code c))) (lower s) = true.
Proof.
  induction s as [|c s IH]; simpl; [reflexivity|].
  now rewrite lower_char_not_upper, IH.
Qed.

Lemma filter_chars_forall (p q : ascii -> bool) (s : string) :
  forall_chars q s = true ->
  forall_chars (fun c => p c && q c) (filter_chars p s) = true.
Proof.
  induction s as [|c s IH]; simpl; [reflexivity|].
  intros E. apply andb_true_iff in E. destruct E as [Ec Es].
  destruct (p c) eqn:Ep; simpl; [rewrite Ep, Ec|]; now apply IH.
Qed.

Lemma split_from_chars (p : ascii -> bool) (s cur : string) :
  forall_chars p cur = true ->
  forall_chars (fun c => isspace c || p c) s = true ->
  Forall (fun t => forall_chars p t = true) (split_from cur s).
Proof.
  revert cur. induction s as [|c s IH]; simpl; intros cur Hcur Hs.
  - destruct (cur =? ""); repeat constructor. exact Hcur.
  - apply andb_true_iff in Hs. destruct Hs as [Hc Hs].
    destruct (isspace c) eqn:Esp.
    + destruct (cur =? ""); [|constructor; [exact Hcur|]];
        now apply IH.
    + apply IH; [|exact Hs]. rewrite forall_chars_app, Hcur. simpl.
      simpl in Hc. now rewrite Hc.
Qed.

Lemma split_from_app_space (sp : ascii) (s t cur : string) :
  isspace sp = true ->
  split_from cur (s ++ String sp t)
  = (split_from cur s ++ split_from "" t)%list.
Proof.
  intros Hsp. revert cur. induction s as [|c s IH]; simpl; intros cur.
  - rewrite Hsp. now destruct (cur =? "").
  - destruct (isspace c); [|apply IH].
    destruct (cur =? ""); simpl; now rewrite IH.
Qed.

Lemma lower_app (a b : string) : lower (a ++ b) = lower a ++ lower b.
Proof. induction a as [|c a IH]; simpl; [reflexivity | now rewrite IH]. Qed.

Lemma filter_chars_app (p : ascii -> bool) (a b : string) :
  filter_chars p (a ++ b) = filter_chars p a ++ filter_chars p b.
Proof.
  induction a as [|c a IH]; simpl; [reflexivity|].
  destruct (p c); simpl; now rewrite IH.
Qed.

(** [split(',')] undoes [','.join] on pieces without a comma. *)
Lemma split_on_free (sep : ascii) (x : string) :
  forall_chars (fun c => negb (Ascii.eqb c sep)) x = true ->
  split_on sep x = [x].
Proof.
  induction x as [|c x IH]; simpl; [reflexivity|].
  intros E. apply andb_true_iff in E. destruct E as [Ec Ex].
  apply negb_true_iff in Ec. now rewrite Ec, IH.
Qed.

Lemma split_on_app (sep : ascii) (x rest : string) :
  forall_chars (fun c => negb (Ascii.eqb c sep)) x = true ->
  split_on sep (x ++ String sep rest) = x :: split_on sep rest.
Proof.
  induction x as [|c x IH]; simpl.
  - now rewrite Ascii.eqb_refl.
  - intros E. apply andb_true_iff in E. destruct E as [Ec Ex].
    apply negb_true_iff in Ec. now rewrite Ec, IH.
Qed.

Lemma split_on_join (sep : ascii) (l : list string) :
  l <> [] ->
  Forall (fun x => forall_chars (fun c => negb (Ascii.eqb c sep)) x = true) l ->
  split_on sep (join (String sep "") l) = l.
Proof.
  intros Hne H. induction H as [|x l Hx Hl IH]; [congruence|].
  destruct l as [|y l].
  - simpl. now apply split_on_free.
  - change (join (String sep "") (x :: y :: l))
      with (x ++ String sep (join (String sep "") (y :: l))).
    rewrite split_on_app by exact Hx. f_equal. apply IH. discriminate.
Qed.

Lemma join_nonempty (sep : string) (l : list string) :
  l <> [] -> Forall (fun x => x <> "") l -> join sep l <> "".
Proof.
  intros Hne H. destruct H as [|x l Hx _]; [congruence|].
  destruct x as [|c x]; [congruence|].
  destruct l; simpl; discriminate.
Qed.

End Characters.

Section MoreEnricher.
Import Spec Enricher Text.

Lemma cleaned_chars (text : string) :
  forall_chars (fun c => isspace c || in_range 97 122 (code c))
               (re_sub_clean (lower text)) = true.
Proof.
  unfold re_sub_clean.
  eapply forall_chars_impl;
    [|apply (filter_chars_forall in_class _ _ (lower_no_upper text))].
  intros c. unfold in_class. simpl.
  destruct (in_range 97 122 (code c)), (in_range 65 90 (code c)), (isspace c);
    simpl; congruence.
Qed.

Lemma token_facts (stop : list string) (text w : string) :
  In w (tokens_with stop text) ->
  (3 <= String.length w)%nat
  /\ mem w stop = false
  /\ forall_chars (fun c => in_range 97 122 (code c)) w = true.
Proof.
  rewrite <- words_are_tokens. intros H. apply filter_In in H.
  destruct H as [Hin Hf]. apply andb_true_iff in Hf. destruct Hf as [H3 Hs].
  apply Nat.leb_le in H3. apply negb_true_iff in Hs.
  repeat split; [exact H3 | exact Hs |].
  pose proof (split_from_chars (fun c => in_range 97 122 (code c))
                (re_sub_clean (lower text)) "" eq_refl (cleaned_chars text))
    as Hall.
  rewrite Forall_forall in Hall. now apply Hall.
Qed.

Lemma In_firstn_in {A} (n : nat) (l : list A) (x : A) :
  In x (firstn n l) -> In x l.
Proof.
  revert n. induction l as [|y l IH]; intros [|n]; simpl; try tauto.
  intros [->|H]; [now left | right; now apply (IH n)].
Qed.

Lemma NoDup_firstn_of {A} (n : nat) (l : list A) : NoDup l -> NoDup (firstn n l).
Proof.
  revert n. induction l as [|x l IH]; intros n H.
  - now rewrite firstn_nil.
  - destruct n; simpl; [constructor|].
    inversion H as [|? ? Hx Hl]; subst. constructor; [|now apply IH].
    intros Hin. apply Hx. now apply (In_firstn_in n).
Qed.

(** X1: what a keyword is.  Whatever the text, the keywords returned are
    pairwise distinct, and each is made of the letters a to z only, has at
    least three of them, and is no stop word. *)
Theorem extract_keywords_wellformed (text : string) (n : Z) :
  NoDup (extract_keywords text n)
  /\ forall w, In w (extract_keywords text n) ->
       (3 <= String.length w)%nat
       /\ mem w stop_words = false
       /\ forall_chars (fun c => in_range 97 122 (code c)) w = true.
Proof.
  unfold extract_keywords. rewrite keywords_with_unfold.
  destruct (ranking_sorted (tokens_with stop_words text)) as [Hnd [Hin _]].
  split.
  - now apply NoDup_firstn_of.
  - intros w Hw. apply In_firstn_in in Hw. apply Hin in Hw.
    now apply (token_facts stop_words text).
Qed.

Lemma keyword_no_comma (w : string) :
  forall_chars (fun c => in_range 97 122 (code c)) w = true ->
  forall_chars (fun c => negb (Ascii.eqb c ",")) w = true.
Proof.
  apply forall_chars_impl. intros c Hc.
  destruct (Ascii.eqb_spec c ","); [subst; discriminate Hc | reflexivity].
Qed.

(** X2: the keywords column.  The keywords of [extract_keywords], joined
    with commas as [save_articles] and [toggle_bookmark] store them, are
    read back unchanged by [load_bookmarks]. *)
Theorem stored_keywords_roundtrip (text : string) (n : Z) :
  Bookmarks.stored_keywords (Some (join "," (extract_keywords text n)))
  = extract_keywords text n.
Proof.
  destruct (extract_keywords_wellformed text n) as [_ Hw].
  unfold Bookmarks.stored_keywords.
  destruct (extract_keywords text n) as [|k kws] eqn:E; [reflexivity|].
  assert (Hne : join "," (k :: kws) <> "").
  { apply join_nonempty; [discriminate|]. rewrite Forall_forall.
    intros x Hx. destruct (Hw x Hx) as [H3 _]. intros ->. simpl in H3. lia. }
  apply String.eqb_neq in Hne. cbn [truthy str]. rewrite Hne. cbn [negb].
  apply (split_on_join ","%char); [discriminate|].
  rewrite Forall_forall. intros x Hx. apply keyword_no_comma.
  now apply (Hw x Hx).
Qed.

Lemma classify_label (p : float) :
  classify p = "positive" \/ classify p = "negative" \/ classify p = "neutral".
Proof.
  unfold classify. destruct (0.1 <? p)%float; [now left|].
  destruct (p <? -0.1)%float; [right; now left | right; now right].
Qed.

Lemma analyze_sentiment_classified (O : sentiment_oracle) (text : string) :
  exists s, analyze_sentiment O text = Ok (s, classify s).
Proof.
  unfold analyze_sentiment.
  destruct (negb (HAS_TEXTBLOB O) || (text =? "")).
  - exists 0%float. reflexivity.
  - destruct (polarity O text) as [p|e]; simpl.
    + exists p. reflexivity.
    + exists 0%float. reflexivity.
Qed.

Context {DT : DateTimeLib}.

(** X3: what enrichment writes.  [process_article] returns the article
    with its seven other fields untouched; the label it stores is the
    classification of the score it stores, on the fallback paths too, so
    it is one of positive, negative and neutral; it stores at most five
    keywords. *)
Theorem process_article_frame (O : sentiment_oracle) (a : NewsArticle) :
  exists a',
    process_article O a = Ok a'
    /\ title a' = title a /\ description a' = description a
    /\ url a' = url a /\ source a' = source a
    /\ published_at a' = published_at a
    /\ image_url a' = image_url a /\ content a' = content a
    /\ sentiment_label a' = classify (sentiment_score a')
    /\ (sentiment_label a' = "positive" \/ sentiment_label a' = "negative"
        \/ sentiment_label a' = "neutral")
    /\ (length (keywords a') <= 5)%nat.
Proof.
  destruct (analyze_sentiment_classified O (full_text a)) as [s Hs].
  eexists. split; [unfold process_article; rewrite Hs; reflexivity|].
  cbn. repeat split; try apply classify_label.
  destruct (extract_keywords_top_ranked (full_text a) default_num_keywords)
    as [_ [Hlen _]].
  exact Hlen.
Qed.

(** X4: a null description.  When the description is [None], the text that
    is analysed ends in the word "None", so "none" is a keyword as soon as
    N is at least the number of words kept. *)
Theorem null_description_keyword (a : NewsArticle) (n : Z) :
  description a = None ->
  (length (tokens (full_text a)) <= Z.to_nat n)%nat ->
  In "none" (tokens (full_text a))
  /\ In "none" (extract_keywords (full_text a) n).
Proof.
  intros Hd Hn.
  assert (Hin : In "none" (tokens (full_text a))).
  { unfold tokens, tokens_with, full_text. rewrite Hd.
    change (str (title a) ++ " " ++ str None)
      with (str (title a) ++ String " " "None").
    rewrite lower_app, filter_chars_app.
    change (filter_chars (fun c => is_letter c || isspace c) (lower (String " " "None")))
      with (String " " "none").
    unfold split. rewrite split_from_app_space by reflexivity.
    rewrite filter_app, in_app_iff. right. now left. }
  split; [exact Hin|].
  unfold extract_keywords. rewrite keywords_with_unfold.
  destruct (ranking_sorted (tokens_with stop_words (full_text a)))
    as [Hnd [Hmem _]].
  rewrite firstn_all2.
  - now apply Hmem.
  - etransitivity; [|exact Hn]. apply NoDup_incl_length; [exact Hnd|].
    intros w Hw. now apply Hmem.
Qed.

End MoreEnricher.

(** X4 on an article titled "Rates held" whose description is None. *)
Lemma null_description_keyword_witness :
  In "none" (Spec.tokens (Enricher.full_text
     (new_article (DT := Samples.iso_text) (Some "Rates held") None None None
                  "2024-05-01T10:00:00+00:00" None None)))
  /\ In "none" (Enricher.extract_keywords (Enricher.full_text
     (new_article (DT := Samples.iso_text) (Some "Rates held") None None None
                  "2024-05-01T10:00:00+00:00" None None)) 5).
Proof.
  apply (null_description_keyword (DT := Samples.iso_text)).
  - reflexivity.
  - vm_compute. repeat constructor.
Defined.

(* ================================================================== *)
(** ** More about the fetcher *)
(* ================================================================== *)

Section MoreFetcher.
Import Fetcher Built.
Context {DT : DateTimeLib}.

Lemma build_article_ok (item : raw_item) (a : NewsArticle) :
  build_article item = Ok a -> built_from item a.
Proof.
  unfold build_article, built_from, parse_published_at, subscript, get.
  destruct (dict_get "title" (members item)) as [t|]; simpl; [|discriminate].
  destruct (dict_get "url" (members item)) as [u|]; simpl; [|discriminate].
  destruct (source_name item) as [src|]; simpl; [|discriminate].
  destruct (dict_get "publishedAt" (members item)) as [[text|]|]; simpl;
    try discriminate.
  destruct (fromisoformat (replace_char "Z" "+00:00" text)) as [dt|] eqn:E;
    simpl; [|discriminate].
  intros [= <-]. cbn. repeat split. exists text. now split.
Qed.

Lemma collect_ok (items : list raw_item) (arts : list NewsArticle) :
  collect items = Ok arts ->
  Forall2 built_from (filter has_usable_title items) arts.
Proof.
  revert arts. induction items as [|item rest IH]; simpl; intros arts H.
  - inversion H. constructor.
  - destruct (has_usable_title item); [|now apply IH].
    destruct (build_article item) as [a|] eqn:Ea; simpl in H; [|discriminate].
    destruct (collect rest) as [more|]; simpl in H; [|discriminate].
    inversion H; subst. constructor; [now apply build_article_ok | now apply IH].
Qed.

Lemma usable_title (item : raw_item) :
  has_usable_title item = true ->
  exists t, get (members item) "title" = Some t /\ t <> "" /\ t <> "[Removed]".
Proof.
  unfold has_usable_title, truthy.
  destruct (get (members item) "title") as [t|]; [|discriminate].
  intros H. apply andb_true_iff in H. destruct H as [H1 H2].
  apply negb_true_iff in H1, H2.
  exists t. repeat split; now apply String.eqb_neq.
Qed.

(** X5: what a successful fetch returns.  When [fetch_news] succeeds on a
    reply with status ok, its articles are, in order, the items with a
    usable title: each article carries its item's title (non-empty and not
    "[Removed]"), url, source name and parsed date, its description and
    content with '' for a missing member, its image url, and the default
    score 0.0, label neutral and no keywords.  So every such item had a
    url member, a source object with a name and a date that parses. *)
Theorem fetch_news_success (items : list raw_item) (arts : list NewsArticle) :
  fetch_news (ok_reply items) = Ok arts ->
  Forall2 built_from (filter has_usable_title items) arts
  /\ Forall (fun a => exists t, title a = Some t /\ t <> "" /\ t <> "[Removed]")
            arts
  /\ (length arts <= length items)%nat.
Proof.
  rewrite fetch_news_ok_reply. intros H.
  assert (Hc : collect items = Ok arts).
  { destruct (collect items) as [l|e] eqn:E; simpl in H; [exact H|].
    rewrite (fetch_handler_item_error e (collect_raises _ _ E)) in H.
    discriminate. }
  pose proof (collect_ok items arts Hc) as H2. split; [exact H2|]. split.
  - assert (Hk : Forall (fun item => has_usable_title item = true)
                        (filter has_usable_title items)).
    { rewrite Forall_forall. intros x Hx. now apply filter_In in Hx. }
    clear Hc H. revert H2 Hk.
    generalize (filter has_usable_title items) as kept.
    intros kept H2. induction H2 as [|item a its as' Hb _ IH]; intros Hk;
      constructor.
    + inversion Hk; subst. destruct Hb as [Ht _]. rewrite Ht.
      now apply usable_title.
    + apply IH. now inversion Hk.
  - rewrite <- (Forall2_length H2). apply filter_length_le.
Qed.

(** X6: how a failed fetch reports.  Whatever fails, [fetch_news] raises a
    plain [Exception] whose message starts with "Network error: " or
    "Error fetching news: "; a requests exception gives the first; a reply
    whose status is not "ok" gives the second with "API Error: " and the
    reply's message, whatever articles the reply carries. *)
Theorem fetch_news_failures (reply : http_reply) :
  (forall e, fetch_news reply = Raise e ->
     exists m, e = Exception ("Network error: " ++ m)
               \/ e = Exception ("Error fetching news: " ++ m))
  /\ (forall what,
        fetch_news (Failed (RequestException what))
        = Raise (Exception ("Network error: " ++ what)))
  /\ (forall data,
        status data <> Some (Some "ok") ->
        fetch_news (Json data)
        = Raise (Exception ("Error fetching news: API Error: "
                            ++ match message data with
                               | None => "Unknown error"
                               | Some m => str m
                               end))).
Proof.
  split; [|split].
  - intros e. unfold fetch_news.
    destruct (fetch_body reply) as [l|e0]; simpl; [discriminate|].
    destruct e0; simpl; intros [= <-]; eauto.
  - reflexivity.
  - intros data Hs. unfold fetch_news, fetch_body.
    destruct (status data) as [[s|]|]; try reflexivity.
    destruct s as [|[[] [] [] [] [] [] [] []] s]; try reflexivity.
    destruct s as [|[[] [] [] [] [] [] [] []] s]; try reflexivity.
    destruct s; [congruence | reflexivity].
Qed.

End MoreFetcher.

(** X5 on the reply that carries the removed item and the markets item. *)
Lemma fetch_news_success_witness :
  Forall2 (Built.built_from (DT := Samples.iso_text))
          (filter Fetcher.has_usable_title
                  [Samples.removed_item; Samples.markets_item])
          [Samples.markets_article]
  /\ Forall (fun a => exists t, title a = Some t /\ t <> "" /\ t <> "[Removed]")
            [Samples.markets_article]
  /\ (length [Samples.markets_article]
      <= length [Samples.removed_item; Samples.markets_item])%nat.
Proof.
  apply (fetch_news_success (DT := Samples.iso_text)
           [Samples.removed_item; Samples.markets_item]).
  reflexivity.
Defined.

(* ================================================================== *)
(** ** The store keeps its schema *)
(* ================================================================== *)

Section SchemaKept.
Import Store Invariants.

Lemma in_urls (u : string) (rows : list article_row) :
  In u (urls rows) <-> exists r, In r rows /\ r_url r = Some u.
Proof.
  unfold urls. rewrite in_flat_map. split.
  - intros [r [Hr Hu]]. exists r. split; [assumption|].
    destruct (r_url r) as [v|]; [|destruct Hu].
    destruct Hu as [->|[]]. reflexivity.
  - intros [r [Hr Hu]]. exists r. split; [assumption|].
    rewrite Hu. now left.
Qed.

Lemma url_is_some (u : string) (r : article_row) :
  url_is (Some u) r = true <-> r_url r = Some u.
Proof.
  unfold url_is. destruct (r_url r) as [v|]; [|split; discriminate].
  split.
  - intros E. apply String.eqb_eq in E. now subst.
  - intros [= ->]. apply String.eqb_refl.
Qed.

Lemma urls_app (l1 l2 : list article_row) :
  urls (l1 ++ l2) = (urls l1 ++ urls l2)%list.
Proof. apply flat_map_app. Qed.

Lemma urls_filter_NoDup (f : article_row -> bool) (rows : list article_row) :
  NoDup (urls rows) -> NoDup (urls (filter f rows)).
Proof.
  induction rows as [|r rows IH]; simpl; [auto|].
  intros H. apply NoDup_app_remove_l in H as Hrest.
  destruct (f r); [|now apply IH].
  simpl. destruct (r_url r) as [u|]; simpl in *; [|now apply IH].
  inversion H as [|? ? Hu _]; subst. constructor; [|now apply IH].
  intros Hin. apply Hu. apply in_urls in Hin. destruct Hin as [x [Hx Hxu]].
  apply filter_In in Hx. apply in_urls. exists x. tauto.
Qed.

Lemma urls_map_flag (g : article_row -> article_row) (rows : list article_row) :
  (forall r, r_url (g r) = r_url r) -> urls (map g rows) = urls rows.
Proof.
  intros H. induction rows as [|r rows IH]; simpl; [reflexivity|].
  now rewrite H, IH.
Qed.

Lemma StronglySorted_filter {A} (R : A -> A -> Prop) (f : A -> bool)
  (l : list A) :
  StronglySorted R l -> StronglySorted R (filter f l).
Proof.
  intros H. induction H as [|a l Hs IH Hall]; simpl; [constructor|].
  destruct (f a); [|exact IH]. constructor; [exact IH|].
  rewrite Forall_forall in *. intros x Hx. apply filter_In in Hx.
  now apply Hall.
Qed.

Lemma Forall_filter_of {A} (P : A -> Prop) (f : A -> bool) (l : list A) :
  Forall P l -> Forall P (filter f l).
Proof.
  rewrite !Forall_forall. intros H x Hx. apply filter_In in Hx. now apply H.
Qed.

Lemma new_row_flag (db : database) (t : string) (v : insert_values) (now : Z) :
  flag_ok v ->
  bookmarked (new_row db t v now) = 0%Z \/ bookmarked (new_row db t v now) = 1%Z.
Proof.
  unfold new_row, flag_ok, default_bookmarked. simpl.
  intros [->|[->| ->]]; auto.
Qed.

(** Adding the new row at the end of rows that do not hold its url. *)
Lemma add_row_well_formed (db : database) (kept : list article_row)
  (t : string) (v : insert_values) (now : Z) :
  well_formed db -> flag_ok v ->
  NoDup (urls kept) ->
  StronglySorted (fun a b => (id a < id b)%Z) kept ->
  Forall (fun r => (0 < id r <= articles_seq db)%Z) kept ->
  Forall (fun r => bookmarked r = 0%Z \/ bookmarked r = 1%Z) kept ->
  (forall r, In r kept -> url_is (v_url v) r = false) ->
  well_formed (with_articles db (kept ++ [new_row db t v now])
                             (articles_seq db + 1)).
Proof.
  intros Hwf Hflag Hnd Hs Hb Hf Hfree. destruct Hwf as [[Hq1 Hq2] _ _ _ _ Hsi Hsb].
  constructor; cbn [articles articles_seq searches searches_seq with_articles].
  - lia.
  - rewrite urls_app. unfold urls at 2. cbn [flat_map new_row r_url].
    destruct (v_url v) as [u|] eqn:Eu; cbn [app]; [|now rewrite app_nil_r].
    apply NoDup_app; [exact Hnd | repeat constructor; intros [] |].
    intros x Hx [<-|[]]. apply in_urls in Hx. destruct Hx as [r [Hr Hu]].
    specialize (Hfree r Hr). apply url_is_some in Hu. congruence.
  - apply StronglySorted_snoc; [exact Hs|].
    rewrite Forall_forall in *. intros r Hr. specialize (Hb r Hr).
    cbn [new_row id]. lia.
  - apply Forall_app. split.
    + rewrite Forall_forall in *. intros r Hr. specialize (Hb r Hr). lia.
    + repeat constructor; cbn [new_row id]; lia.
  - apply Forall_app. split; [exact Hf|].
    constructor; [now apply new_row_flag | constructor].
  - exact Hsi.
  - exact Hsb.
Qed.

Lemma insert_or_replace_well_formed (db db' : database) (v : insert_values)
  (now : Z) :
  well_formed db -> flag_ok v ->
  insert_or_replace db v now = Executed db' -> well_formed db'.
Proof.
  intros Hwf Hflag. unfold insert_or_replace.
  destruct (v_title v) as [t|]; [|discriminate]. intros [= <-].
  pose proof Hwf as [_ Hu Hi Hb Hf _ _].
  apply add_row_well_formed; auto using urls_filter_NoDup,
    StronglySorted_filter, Forall_filter_of.
  intros r Hr. apply filter_In in Hr. destruct Hr as [_ Hr].
  now apply negb_true_iff in Hr.
Qed.

Lemma insert_well_formed (db db' : database) (v : insert_values) (now : Z) :
  well_formed db -> flag_ok v ->
  insert db v now = Executed db' -> well_formed db'.
Proof.
  intros Hwf Hflag. unfold insert.
  destruct (v_title v) as [t|]; [|discriminate].
  destruct (existsb (url_is (v_url v)) (articles db)) eqn:E; [discriminate|].
  intros [= <-]. pose proof Hwf as [_ Hu Hi Hb Hf _ _].
  apply add_row_well_formed; auto.
  intros r Hr. destruct (url_is (v_url v) r) eqn:Er; [|reflexivity].
  assert (existsb (url_is (v_url v)) (articles db) = true)
    by (apply existsb_exists; eauto).
  congruence.
Qed.

Lemma reflag_well_formed (db : database) (g : article_row -> article_row) :
  well_formed db ->
  (forall r, r_url (g r) = r_url r) ->
  (forall r, id (g r) = id r) ->
  (forall r, In r (articles db) ->
     bookmarked (g r) = 0%Z \/ bookmarked (g r) = 1%Z) ->
  well_formed (with_articles db (map g (articles db)) (articles_seq db)).
Proof.
  intros [Hq Hu Hi Hb Hf Hsi Hsb] Hurl Hid Hflag.
  constructor; cbn [articles articles_seq searches searches_seq with_articles];
    auto.
  - now rewrite urls_map_flag.
  - apply StronglySorted_map with (R := fun a b => (id a < id b)%Z); [|exact Hi].
    intros a b _ _. now rewrite !Hid.
  - rewrite Forall_forall in *. intros x Hx. apply in_map_iff in Hx.
    destruct Hx as [r [<- Hr]]. rewrite Hid. now apply Hb.
  - rewrite Forall_forall in *. intros x Hx. apply in_map_iff in Hx.
    destruct Hx as [r [<- Hr]]. now apply Hflag.
Qed.

Section WithDates.
Context {DT : DateTimeLib}.

Lemma save_loop_well_formed (arts : list NewsArticle) (db : database) (n : Z)
  (category : option string) (now : Z) :
  well_formed db -> well_formed (fst (save_loop db n arts category now)).
Proof.
  revert db n. induction arts as [|a arts IH]; simpl; intros db n Hwf; [exact Hwf|].
  destruct (insert_or_replace db (save_values a category) now) as [db'|] eqn:E;
    apply IH; [|exact Hwf].
  apply (insert_or_replace_well_formed db db' (save_values a category) now Hwf);
    [now left | exact E].
Qed.

Lemma toggle_well_formed (O : sentiment_oracle) (db : database)
  (a : NewsArticle) (now : Z) :
  well_formed db -> well_formed (fst (toggle_bookmark O db a now)).
Proof.
  intros Hwf. unfold toggle_bookmark, toggle_body.
  destruct (select_by_url db (url a)) as [row|] eqn:Es.
  - cbn [fst]. unfold update_bookmarked.
    apply find_some in Es. destruct Es as [Hin _].
    pose proof (flags db Hwf) as Hf. rewrite Forall_forall in Hf.
    apply reflag_well_formed; auto.
    + intros r. now destruct (url_is (url a) r).
    + intros r. now destruct (url_is (url a) r).
    + intros r Hr. destruct (url_is (url a) r); [|now apply Hf].
      cbn [set_bookmarked bookmarked]. specialize (Hf row Hin). lia.
  - destruct (process_article_returns O a) as [s [l ->]]. cbn [bind].
    match goal with |- context [insert db ?v now] =>
      destruct (insert db v now) as [db'|] eqn:E end; cbn [fst]; [|exact Hwf].
    eapply (insert_well_formed db db'); [exact Hwf | | exact E].
    right. now right.
Qed.

Lemma unbookmark_all_well_formed (db : database) :
  well_formed db -> well_formed (Bookmarks.unbookmark_all db).
Proof.
  intros Hwf. unfold Bookmarks.unbookmark_all.
  pose proof (flags db Hwf) as Hf. rewrite Forall_forall in Hf.
  apply reflag_well_formed; auto.
  - intros r. now destruct (bookmarked r =? 1)%Z.
  - intros r. now destruct (bookmarked r =? 1)%Z.
  - intros r Hr. destruct (bookmarked r =? 1)%Z; [now left | now apply Hf].
Qed.

Lemma save_search_query_well_formed (db : database) (q : string) (now : Z) :
  well_formed db -> well_formed (save_search_query db q now).
Proof.
  intros [[Hq1 Hq2] Hu Hi Hb Hf Hsi Hsb].
  constructor; cbn [articles articles_seq searches searches_seq save_search_query];
    auto.
  - lia.
  - apply StronglySorted_snoc; [exact Hsi|].
    rewrite Forall_forall in *. intros r Hr. specialize (Hsb r Hr).
    cbn [s_id]. lia.
  - apply Forall_app. split.
    + rewrite Forall_forall in *. intros r Hr. specialize (Hsb r Hr). lia.
    + repeat constructor; cbn [s_id]; lia.
Qed.

Lemma one_row_per_url (rows : list article_row) (u : string) :
  NoDup (urls rows) -> (length (filter (url_is (Some u)) rows) <= 1)%nat.
Proof.
  induction rows as [|r rows IH]; intros H; [simpl; lia|].
  unfold urls in H. cbn [flat_map] in H. fold (urls rows) in H.
  apply NoDup_app_remove_l in H as Hrest. specialize (IH Hrest).
  cbn [filter]. destruct (url_is (Some u) r) eqn:E; [|exact IH].
  apply url_is_some in E. rewrite E in H. cbn [app] in H.
  inversion H as [|? ? Hu _]; subst.
  assert (Hnone : filter (url_is (Some u)) rows = []).
  { destruct (filter (url_is (Some u)) rows) as [|x l] eqn:Ef; [reflexivity|].
    exfalso. apply Hu. apply in_urls. exists x.
    assert (Hx : In x (filter (url_is (Some u)) rows)) by (rewrite Ef; now left).
    apply filter_In in Hx. destruct Hx as [Hx1 Hx2].
    apply url_is_some in Hx2. tauto. }
  rewrite Hnone. simpl. lia.
Qed.

(** X7: the schema holds in every state.  Starting from a new database,
    whatever sequence of [save_articles], [toggle_bookmark],
    [clear_bookmarks] and [save_search_query] runs, no two rows share a
    url, rowids grow along each table and stay within the sequence, and
    every bookmark flag is 0 or 1; so a url has at most one row. *)
Theorem reachable_well_formed (db : database) :
  reachable db ->
  well_formed db /\ forall u, (length (rows_at u db) <= 1)%nat.
Proof.
  intros H.
  assert (Hwf : well_formed db).
  { induction H.
    - constructor; simpl; try constructor; lia.
    - now apply save_loop_well_formed.
    - now apply toggle_well_formed.
    - unfold Bookmarks.clear_bookmarks. destruct confirmed; cbn [fst];
        [now apply unbookmark_all_well_formed | assumption].
    - now apply save_search_query_well_formed. }
  split; [exact Hwf|]. intros u. apply one_row_per_url.
  exact (unique_urls db Hwf).
Qed.

End WithDates.
End SchemaKept.

(** X7 on the store after one upsert of two articles and one bookmark. *)
Lemma reachable_well_formed_witness :
  let db := fst (Store.toggle_bookmark Samples.no_textblob
              (fst (Store.save_articles Store.setup_database
                      [Samples.old_markets; Samples.markets_article] None 10))
              Samples.markets_article 20) in
  Invariants.well_formed db
  /\ forall u, (length (Store.rows_at u db) <= 1)%nat.
Proof.
  apply (reachable_well_formed (DT := Samples.iso_text)).
  apply Invariants.reach_toggle. apply Invariants.reach_save.
  apply Invariants.reach_setup.
Defined.

(* ================================================================== *)
(** ** More about [save_articles] and [toggle_bookmark] *)
(* ================================================================== *)

Section MoreStore.
Import Store Invariants.
Context {DT : DateTimeLib}.

Lemma save_loop_count (arts : list NewsArticle) (db : database) (n : Z)
  (category : option string) (now : Z) :
  let out := save_loop db n arts category now in
  snd out = (n + Z.of_nat (length (filter titled arts)))%Z
  /\ articles_seq (fst out)
     = (articles_seq db + Z.of_nat (length (filter titled arts)))%Z
  /\ (length (articles (fst out))
      <= length (articles db) + length (filter titled arts))%nat
  /\ searches (fst out) = searches db
  /\ searches_seq (fst out) = searches_seq db.
Proof.
  revert db n. induction arts as [|a arts IH]; intros db n.
  - simpl. repeat split; lia.
  - cbn [save_loop filter]. unfold insert_or_replace.
    cbn [save_values v_title].
    assert (Ht : titled a = match title a with Some _ => true | None => false end)
      by reflexivity.
    rewrite Ht. clear Ht.
    destruct (title a) as [t|] eqn:Et; [|apply IH].
    match goal with |- context [save_loop ?d _ arts category now] =>
      set (db1 := d) end.
    destruct (IH db1 (n + 1)%Z) as [H1 [H2 [H3 [H4 H5]]]].
    assert (Hlen : (length (articles db1) <= length (articles db) + 1)%nat).
    { unfold db1. cbn [articles with_articles]. rewrite length_app.
      cbn [length].
      pose proof (filter_length_le
        (fun r => negb (url_is (v_url (save_values a category)) r))
        (articles db)). lia. }
    cbn [length]. cbn zeta in *.
    replace (articles_seq db1) with (articles_seq db + 1)%Z in H2
      by reflexivity.
    replace (searches db1) with (searches db) in H4 by reflexivity.
    replace (searches_seq db1) with (searches_seq db) in H5 by reflexivity.
    repeat split; try assumption; lia.
Qed.

(** X8: what [save_articles] counts.  The count it returns is the number
    of articles of the batch that have a title, each counted even when a
    later one of the batch replaces it; the sequence of rowids grows by
    that count, the table grows by at most that count, and the search
    history is untouched. *)
Theorem save_articles_count (db : database) (arts : list NewsArticle)
  (category : option string) (now : Z) :
  let db' := fst (save_articles db arts category now) in
  snd (save_articles db arts category now)
  = Z.of_nat (length (filter titled arts))
  /\ articles_seq db'
     = (articles_seq db + Z.of_nat (length (filter titled arts)))%Z
  /\ (length (articles db')
      <= length (articles db) + length (filter titled arts))%nat
  /\ searches db' = searches db.
Proof.
  destruct (save_loop_count arts db 0 category now) as [H1 [H2 [H3 [H4 _]]]].
  unfold save_articles. repeat split; assumption.
Qed.

Lemma save_loop_keeps_row (arts : list NewsArticle) (db : database) (n : Z)
  (category : option string) (now : Z) (r : article_row) :
  In r (articles db) ->
  Forall (fun a => title a = None \/ url_is (url a) r = false) arts ->
  In r (articles (fst (save_loop db n arts category now))).
Proof.
  intros Hin H. revert db n Hin.
  induction H as [|a arts Ha _ IH]; intros db n Hin; [exact Hin|].
  cbn [save_loop]. unfold insert_or_replace. cbn [save_values v_title v_url].
  destruct (title a) as [t|]; [|now apply IH].
  apply IH. cbn [articles with_articles]. apply in_or_app. left.
  apply filter_In. split; [exact Hin|].
  destruct Ha as [Ha|Ha]; [discriminate | now rewrite Ha].
Qed.

(** X9: what [save_articles] leaves alone.  A row stays in the table,
    bookmark flag and all, when no titled article of the batch has its
    url; a row without a url always stays. *)
Theorem save_articles_keeps_row (db : database) (arts : list NewsArticle)
  (category : option string) (now : Z) (r : article_row) :
  In r (articles db) ->
  (r_url r = None
   \/ Forall (fun a => title a = None \/ url a <> r_url r) arts) ->
  In r (articles (fst (save_articles db arts category now))).
Proof.
  intros Hin H. apply save_loop_keeps_row; [exact Hin|].
  rewrite Forall_forall. intros a Ha. unfold url_is.
  destruct H as [H|H].
  - right. rewrite H. now destruct (url a).
  - rewrite Forall_forall in H. destruct (H a Ha) as [Ht|Hu]; [now left|].
    right. destruct (url a) as [u|]; [|reflexivity].
    destruct (r_url r) as [v|]; [|reflexivity].
    destruct (String.eqb_spec u v); [congruence | reflexivity].
Qed.

Lemma set_bookmarked_same (r : article_row) :
  set_bookmarked (bookmarked r) r = r.
Proof. now destruct r. Qed.

Lemma set_bookmarked_twice (b c : Z) (r : article_row) :
  set_bookmarked c (set_bookmarked b r) = set_bookmarked c r.
Proof. reflexivity. Qed.

Lemma the_row_of_url (rows : list article_row) (u : option string)
  (row r : article_row) :
  NoDup (urls rows) -> find (url_is u) rows = Some row ->
  In r rows -> url_is u r = true -> r = row.
Proof.
  intros Hnd Hfind Hin Hr.
  destruct u as [u|]; [|discriminate Hr].
  apply find_some in Hfind. destruct Hfind as [Hrow Hu].
  apply url_is_some in Hr, Hu.
  revert Hnd Hin Hrow. induction rows as [|x rows IH]; [intros _ []|].
  unfold urls. cbn [flat_map]. fold (urls rows). intros Hnd Hin Hrow.
  apply NoDup_app_remove_l in Hnd as Hrest.
  assert (Hx : forall y, In y rows -> r_url y = Some u -> r_url x <> Some u).
  { intros y Hy Hyu Hxu. rewrite Hxu in Hnd. cbn [app] in Hnd.
    inversion Hnd as [|? ? Hnot _]; subst. apply Hnot. apply in_urls. eauto. }
  destruct Hin as [<-|Hin], Hrow as [<-|Hrow]; auto.
  - exfalso. exact (Hx row Hrow Hu Hr).
  - exfalso. exact (Hx r Hin Hr Hu).
Qed.

(** X10: toggling twice.  In a table without duplicate urls, two calls of
    [toggle_bookmark] on an article whose url has a row give back the
    database as it was. *)
Theorem toggle_bookmark_twice (O : sentiment_oracle) (db : database)
  (a : NewsArticle) (now now' : Z) (row : article_row) :
  well_formed db -> select_by_url db (url a) = Some row ->
  fst (toggle_bookmark O (fst (toggle_bookmark O db a now)) a now') = db.
Proof.
  intros Hwf Hsel.
  rewrite (toggle_existing O db a now row Hsel). cbn [fst].
  assert (Hsel' : select_by_url
            (update_bookmarked db (1 - bookmarked row) (url a)) (url a)
            = Some (set_bookmarked (1 - bookmarked row) row)).
  { now rewrite select_by_url_update, Hsel. }
  rewrite (toggle_existing O _ a now' _ Hsel'). cbn [fst].
  unfold update_bookmarked. cbn [articles articles_seq with_articles bookmarked
    set_bookmarked].
  replace (1 - (1 - bookmarked row))%Z with (bookmarked row) by lia.
  destruct db as [rows seq ss sseq]. unfold with_articles.
  cbn [articles articles_seq searches searches_seq] in *. f_equal.
  rewrite map_map. rewrite <- (map_id rows) at 2.
  apply map_ext_in. intros r Hr.
  destruct (url_is (url a) r) eqn:E.
  - replace (url_is (url a) (set_bookmarked (1 - bookmarked row) r))
      with (url_is (url a) r) by reflexivity.
    rewrite E, set_bookmarked_twice.
    rewrite (the_row_of_url rows (url a) row r (unique_urls _ Hwf) Hsel Hr E).
    apply set_bookmarked_same.
  - now rewrite E.
Qed.

(** X11: what [toggle_bookmark] leaves alone.  Whatever the article, the
    rows of other urls stay as they are, the table keeps its rows and
    gains at most one, and the search history is untouched; when the call
    ends in an error box, the database is unchanged. *)
Theorem toggle_bookmark_frame (O : sentiment_oracle) (db : database)
  (a : NewsArticle) (now : Z) :
  let db' := fst (toggle_bookmark O db a now) in
  (forall r, In r (articles db) -> url_is (url a) r = false ->
             In r (articles db'))
  /\ (length (articles db) <= length (articles db')
      <= length (articles db) + 1)%nat
  /\ searches db' = searches db
  /\ (forall caption text,
        snd (toggle_bookmark O db a now) = showerror caption text ->
        db' = db).
Proof.
  unfold toggle_bookmark, toggle_body.
  destruct (select_by_url db (url a)) as [row|] eqn:Es.
  - cbn [fst snd]. unfold update_bookmarked.
    cbn [articles searches with_articles]. repeat split.
    + intros r Hr E. apply in_map_iff. exists r. now rewrite E.
    + rewrite length_map. lia.
    + rewrite length_map. lia.
    + discriminate.
  - destruct (process_article_returns O a) as [s [l ->]]. cbn [bind].
    unfold insert.
    match goal with |- context [v_title ?v] => destruct (v_title v) end;
      [|cbn [fst snd]; repeat split; auto; lia].
    match goal with |- context [existsb ?f ?l] => destruct (existsb f l) end;
      cbn [fst snd articles searches with_articles];
      [repeat split; auto; lia|].
    repeat split.
    + intros r Hr _. apply in_or_app. now left.
    + rewrite length_app. simpl. lia.
    + rewrite length_app. simpl. lia.
    + discriminate.
Qed.

(** X12: an article without a url.  [url = NULL] matches no row and a NULL
    url conflicts with none, so every call of [toggle_bookmark] on a
    titled article without a url adds one more bookmarked row and reports
    "added": the bookmark cannot be taken back this way. *)
Theorem toggle_bookmark_without_url (O : sentiment_oracle) (db : database)
  (a : NewsArticle) (now : Z) (t : string) :
  url a = None -> title a = Some t ->
  exists row,
    toggle_bookmark O db a now
    = (with_articles db (articles db ++ [row]) (articles_seq db + 1),
       showinfo "Bookmark" "Article added to bookmarks!")
    /\ r_url row = None /\ r_title row = t /\ bookmarked row = 1%Z.
Proof.
  intros Hu Ht. unfold toggle_bookmark, toggle_body, select_by_url.
  rewrite Hu.
  assert (Hnone : forall rows, find (url_is None) rows = None).
  { induction rows; simpl; auto. }
  rewrite Hnone.
  destruct (process_article_returns O a) as [s [l ->]]. cbn [bind].
  unfold insert. cbn [bookmark_values v_title v_url title url].
  rewrite Ht, Hu.
  assert (Hex : forall rows, existsb (url_is None) rows = false).
  { induction rows; simpl; auto. }
  rewrite Hex. eexists. split; [reflexivity|]. repeat split.
Qed.

End MoreStore.

(** X9: the bookmarked row outlives an upsert of another url and of an
    untitled article of its own url. *)
Lemma save_articles_keeps_row_witness :
  In Samples.bookmarked_row
     (Store.articles (fst (Store.save_articles Samples.bookmarked_store
                             [Samples.other_article; Samples.untitled_article]
                             None 20))).
Proof.
  apply (save_articles_keeps_row (DT := Samples.iso_text)).
  - left. reflexivity.
  - right. constructor; [right; discriminate|].
    constructor; [left; reflexivity | constructor].
Defined.

(** X10 on the store that holds the bookmarked sample row. *)
Lemma toggle_bookmark_twice_witness :
  fst (Store.toggle_bookmark Samples.no_textblob
         (fst (Store.toggle_bookmark Samples.no_textblob
                 Samples.bookmarked_store Samples.markets_article 20))
         Samples.markets_article 30)
  = Samples.bookmarked_store.
Proof.
  apply (toggle_bookmark_twice (DT := Samples.iso_text) Samples.no_textblob
           Samples.bookmarked_store Samples.markets_article 20 30
           Samples.bookmarked_row).
  - constructor.
    + split; discriminate.
    + simpl. constructor; [intros [] | constructor].
    + simpl. constructor; constructor.
    + simpl. constructor; [split; [reflexivity | discriminate] | constructor].
    + simpl. constructor; [right; reflexivity | constructor].
    + simpl. constructor.
    + simpl. constructor.
  - reflexivity.
Defined.

(** X12 on an article titled "One" that has no url. *)
Lemma toggle_bookmark_without_url_witness :
  exists row,
    Store.toggle_bookmark Samples.no_textblob Samples.bookmarked_store
      (Samples.no_url_article "One") 20
    = (Store.with_articles Samples.bookmarked_store
         (Store.articles Samples.bookmarked_store ++ [row])
         (Store.articles_seq Samples.bookmarked_store + 1),
       Store.showinfo "Bookmark" "Article added to bookmarks!")
    /\ Store.r_url row = None /\ Store.r_title row = "One"
    /\ Store.bookmarked row = 1%Z.
Proof.
  apply (toggle_bookmark_without_url (DT := Samples.iso_text)); reflexivity.
Defined.

(* ================================================================== *)
(** ** Bookmarks *)
(* ================================================================== *)

Section BookmarkFacts.
Import Store Bookmarks.

Lemma created_insert_perm (r : article_row) (l : list article_row) :
  Permutation (created_insert r l) (r :: l).
Proof.
  induction l as [|y l IH]; simpl; [reflexivity|].
  destruct (created_at y <=? created_at r)%Z; [reflexivity|].
  rewrite IH. apply perm_swap.
Qed.

Lemma order_by_created_perm (rows : list article_row) :
  Permutation (order_by_created_desc rows) rows.
Proof.
  induction rows as [|r rows IH]; simpl; [reflexivity|].
  rewrite created_insert_perm. now constructor.
Qed.

Lemma created_insert_sorted (r : article_row) (l : list article_row) :
  StronglySorted (fun a b => (created_at b <= created_at a)%Z) l ->
  StronglySorted (fun a b => (created_at b <= created_at a)%Z)
                 (created_insert r l).
Proof.
  intros H. induction H as [|y l Hs IH Hall]; simpl.
  - repeat constructor.
  - destruct (created_at y <=? created_at r)%Z eqn:E.
    + apply Z.leb_le in E. constructor; [now constructor|].
      constructor; [exact E|]. rewrite Forall_forall in *.
      intros z Hz. specialize (Hall z Hz). lia.
    + apply Z.leb_gt in E. constructor; [exact IH|].
      eapply Permutation_Forall; [symmetry; apply created_insert_perm|].
      constructor; [lia | exact Hall].
Qed.

Lemma order_by_created_sorted (rows : list article_row) :
  StronglySorted (fun a b => (created_at b <= created_at a)%Z)
                 (order_by_created_desc rows).
Proof.
  induction rows as [|r rows IH]; simpl; [constructor|].
  now apply created_insert_sorted.
Qed.

Lemma order_by_created_nil (rows : list article_row) :
  order_by_created_desc rows = [] -> rows = [].
Proof.
  intros H. pose proof (order_by_created_perm rows) as Hp. rewrite H in Hp.
  now apply Permutation_nil in Hp.
Qed.

Lemma unbookmarked_none (rows : list article_row) :
  filter (fun r => (bookmarked r =? 1)%Z)
         (map (fun r => if (bookmarked r =? 1)%Z then set_bookmarked 0 r else r)
              rows) = [].
Proof.
  induction rows as [|r rows IH]; simpl; [reflexivity|].
  destruct (bookmarked r =? 1)%Z eqn:E; simpl; [exact IH|].
  now rewrite E.
Qed.

Context {DT : DateTimeLib}.

Lemma load_cards_prefix (rows : list article_row) :
  let cards := fst (load_cards rows) in
  Forall2 (fun r a => article_of_row r = Ok a)
          (firstn (length cards) rows) cards
  /\ (snd (load_cards rows) = None <-> length cards = length rows)
  /\ (forall e, snd (load_cards rows) = Some e ->
        exists r, nth_error rows (length cards) = Some r
                  /\ article_of_row r = Raise e).
Proof.
  induction rows as [|r rows IH]; simpl.
  - repeat split; try constructor; auto; discriminate.
  - destruct (article_of_row r) as [a|e0] eqn:E; simpl.
    + destruct (load_cards rows) as [cards failure]. simpl in *.
      destruct IH as [H1 [H2 H3]]. repeat split.
      * now constructor.
      * intros H. apply H2 in H. lia.
      * intros H. apply H2. lia.
      * exact H3.
    + repeat split; try constructor; try discriminate.
      intros e [= <-]. eauto.
Qed.

(** X13: what the Bookmarks tab lists.  [load_bookmarks] reads exactly the
    rows whose flag is 1, newest [created_at] first; its label counts all
    of them; its cards are built, in that order, from the rows up to the
    first one whose stored date is NULL or does not parse, and it shows an
    error box exactly when it stopped at such a row. *)
Theorem load_bookmarks_listing (db : database) :
  let rows := select_bookmarked db in
  let tab := load_bookmarks db in
  Permutation rows (filter (fun r => (bookmarked r =? 1)%Z) (articles db))
  /\ StronglySorted (fun a b => (created_at b <= created_at a)%Z) rows
  /\ count_label tab = Text.str_of_nat (length rows) ++ " bookmarks"
  /\ Forall2 (fun r a => article_of_row r = Ok a)
             (firstn (length (cards tab)) rows) (cards tab)
  /\ (failure tab = None <-> length (cards tab) = length rows)
  /\ (forall r, nth_error rows (length (cards tab)) = Some r ->
        exists e, article_of_row r = Raise e
          /\ failure tab
             = Some (showerror "Error"
                       ("Failed to load bookmarks: " ++ exn_message e))).
Proof.
  intros rows tab.
  split; [apply order_by_created_perm|].
  split; [apply order_by_created_sorted|].
  destruct (load_cards_prefix rows) as [H1 [H2 H3]].
  unfold tab, load_bookmarks. fold rows.
  destruct (load_cards rows) as [cs raised] eqn:E. cbn [fst snd] in *.
  cbn [count_label cards failure].
  split; [reflexivity|]. split; [exact H1|]. split.
  - rewrite <- H2. destruct raised; split; congruence.
  - intros r Hr. destruct raised as [e|].
    + destruct (H3 e eq_refl) as [r' [Hr' He]].
      rewrite Hr in Hr'. inversion Hr'; subst. eauto.
    + assert (Hlen : length cs = length rows) by now apply H2.
      assert (nth_error rows (length cs) <> None) by congruence.
      apply nth_error_Some in H. lia.
Qed.

(** X14: clearing the bookmarks.  Once confirmed, [clear_bookmarks] leaves
    no row with the flag 1, so the reloaded tab is empty and reads
    "0 bookmarks"; it keeps every row's id, url and title, the rows that
    were not bookmarked as they were, and the search history; a second
    run changes nothing more; declined, it changes nothing at all. *)
Theorem clear_bookmarks_clears (db : database) :
  let db' := fst (clear_bookmarks true db) in
  select_bookmarked db' = []
  /\ snd (clear_bookmarks true db)
     = Some ({| count_label := "0 bookmarks"; cards := []; failure := None |},
             showinfo "Success" "All bookmarks cleared!")
  /\ Forall (fun r => bookmarked r <> 1%Z) (articles db')
  /\ map id (articles db') = map id (articles db)
  /\ map r_url (articles db') = map r_url (articles db)
  /\ map r_title (articles db') = map r_title (articles db)
  /\ (forall r, In r (articles db) -> bookmarked r <> 1%Z ->
                In r (articles db'))
  /\ searches db' = searches db
  /\ fst (clear_bookmarks true db') = db'
  /\ clear_bookmarks false db = (db, None).
Proof.
  intros db'.
  assert (Hsel : select_bookmarked db' = []).
  { unfold db', clear_bookmarks, select_bookmarked, unbookmark_all.
    cbn [fst articles with_articles]. now rewrite unbookmarked_none. }
  assert (Hflags : Forall (fun r => bookmarked r <> 1%Z) (articles db')).
  { unfold db', clear_bookmarks, unbookmark_all.
    cbn [fst articles with_articles]. rewrite Forall_forall.
    intros x Hx. apply in_map_iff in Hx. destruct Hx as [r [<- _]].
    destruct (bookmarked r =? 1)%Z eqn:E; [discriminate|].
    now apply Z.eqb_neq in E. }
  split; [exact Hsel|]. split.
  { unfold clear_bookmarks. cbn [snd fst]. fold (fst (clear_bookmarks true db)).
    unfold load_bookmarks.
    change (unbookmark_all db) with db'. now rewrite Hsel. }
  split; [exact Hflags|].
  unfold db', clear_bookmarks, unbookmark_all.
  cbn [fst articles searches with_articles].
  split; [|split; [|split; [|split; [|split; [|split]]]]].
  - rewrite map_map. apply map_ext. intros r. now destruct (bookmarked r =? 1)%Z.
  - rewrite map_map. apply map_ext. intros r. now destruct (bookmarked r =? 1)%Z.
  - rewrite map_map. apply map_ext. intros r. now destruct (bookmarked r =? 1)%Z.
  - intros r Hr Hb. apply in_map_iff. exists r. split; [|exact Hr].
    apply Z.eqb_neq in Hb. now rewrite Hb.
  - reflexivity.
  - unfold with_articles. cbn [articles articles_seq searches searches_seq].
    f_equal. rewrite map_map. apply map_ext. intros r.
    destruct (bookmarked r =? 1)%Z eqn:E; [reflexivity | now rewrite E].
  - reflexivity.
Qed.

(** X15: a bookmark comes back.  In a store without bookmarks, after
    [toggle_bookmark] adds an article whose date survives
    [isoformat]/[fromisoformat], [load_bookmarks] shows exactly one card:
    the article's title, url, source and date, its description with ''
    for a missing one, the score, label and keywords that
    [process_article] gave it, and neither image url nor content. *)
Theorem bookmark_then_load (O : sentiment_oracle) (db : database)
  (a : NewsArticle) (now : Z) (t : string) :
  title a = Some t ->
  select_by_url db (url a) = None ->
  select_bookmarked db = [] ->
  fromisoformat (isoformat (published_at a)) = Some (published_at a) ->
  exists processed,
    Enricher.process_article O a = Ok processed
    /\ load_bookmarks (fst (toggle_bookmark O db a now))
       = {| count_label := "1 bookmarks";
            cards := [ {| title := Some t;
                          description := Some (or_else (description a) "");
                          url := url a;
                          source := source a;
                          published_at := published_at a;
                          image_url := None;
                          content := None;
                          sentiment_score := sentiment_score processed;
                          sentiment_label := sentiment_label processed;
                          keywords := Enricher.extract_keywords
                                        (Enricher.full_text a) 5 |} ];
            failure := None |}.
Proof.
  intros Ht Hnone Hnob Hdate.
  destruct (process_article_returns O a) as [s [l Hrun]].
  eexists. split; [exact Hrun|].
  unfold toggle_bookmark, toggle_body. rewrite Hnone, Hrun. cbn [bind].
  unfold insert. cbn [bookmark_values v_title v_url title url].
  rewrite Ht. fold (select_by_url db (url a)) in Hnone.
  unfold select_by_url in Hnone. rewrite (find_none_existsb _ _ Hnone).
  cbn [fst]. unfold load_bookmarks, select_bookmarked.
  cbn [articles with_articles]. rewrite filter_app.
  apply order_by_created_nil in Hnob. unfold select_bookmarked in Hnob.
  rewrite Hnob. cbn [app filter new_row bookmarked v_bookmarked bookmark_values].
  cbn [Z.eqb Pos.eqb order_by_created_desc created_insert load_cards].
  unfold article_of_row, new_row, bookmark_values.
  cbn [r_published_at v_published_at r_title r_description v_description
       r_url v_url r_source v_source r_sentiment_score v_sentiment_score
       r_sentiment_label v_sentiment_label r_keywords v_keywords
       title description url source published_at sentiment_score
       sentiment_label keywords].
  rewrite Hdate.
  unfold Enricher.default_num_keywords. rewrite stored_keywords_roundtrip.
  reflexivity.
Qed.

End BookmarkFacts.

(** X15 on an empty store and the markets article. *)
Lemma bookmark_then_load_witness :
  exists processed,
    Enricher.process_article Samples.no_textblob Samples.markets_article
    = Ok processed
    /\ Bookmarks.load_bookmarks
         (fst (Store.toggle_bookmark Samples.no_textblob Store.setup_database
                 Samples.markets_article 10))
       = {| Bookmarks.count_label := "1 bookmarks";
            Bookmarks.cards :=
              [ {| title := Some "Markets rallied";
                   description := Some (or_else (description Samples.markets_article) "");
                   url := url Samples.markets_article;
                   source := source Samples.markets_article;
                   published_at := published_at Samples.markets_article;
                   image_url := None;
                   content := None;
                   sentiment_score := sentiment_score processed;
                   sentiment_label := sentiment_label processed;
                   keywords := Enricher.extract_keywords
                                 (Enricher.full_text Samples.markets_article) 5 |} ];
            Bookmarks.failure := None |}.
Proof.
  apply (bookmark_then_load (DT := Samples.iso_text) Samples.no_textblob
           Store.setup_database Samples.markets_article 10 "Markets rallied");
    reflexivity.
Defined.

(* ================================================================== *)
(** ** The search history *)
(* ================================================================== *)

Section History.
Import Store.

Lemma mem_iff (x : string) (s : list string) : mem x s = true <-> In x s.
Proof.
  unfold mem. rewrite existsb_exists. split.
  - intros [y [Hy E]]. apply String.eqb_eq in E. now subst.
  - intros H. exists x. split; [assumption | apply String.eqb_refl].
Qed.

Lemma mem_cons (x y : string) (s : list string) :
  mem x (y :: s) = (x =? y) || mem x s.
Proof. reflexivity. Qed.

Lemma distinct_scan_snoc (rows : list search_row) (seen : list string)
  (r : search_row) :
  distinct_scan seen (rows ++ [r])
  = (distinct_scan seen rows
     ++ (if mem (s_query r) seen || mem (s_query r) (map s_query rows)
         then [] else [r]))%list.
Proof.
  revert seen. induction rows as [|x rows IH]; intros seen.
  - simpl. rewrite orb_false_r. now destruct (mem (s_query r) seen).
  - cbn [app distinct_scan map]. rewrite mem_cons.
    destruct (mem (s_query x) seen) eqn:Ex.
    + rewrite IH. f_equal.
      destruct (String.eqb_spec (s_query r) (s_query x)) as [->|_].
      * now rewrite Ex.
      * reflexivity.
    + rewrite IH, mem_cons. cbn [app]. f_equal. f_equal.
      destruct (s_query r =? s_query x), (mem (s_query r) seen); reflexivity.
Qed.

Lemma distinct_scan_queries (rows : list search_row) (seen : list string) :
  NoDup (map s_query (distinct_scan seen rows))
  /\ (forall q, In q (map s_query (distinct_scan seen rows))
        <-> In q (map s_query rows) /\ ~ In q seen)
  /\ incl (distinct_scan seen rows) rows.
Proof.
  revert seen. induction rows as [|x rows IH]; intros seen.
  - simpl. split; [constructor|]. split; [tauto | intros r []].
  - cbn [distinct_scan map]. destruct (mem (s_query x) seen) eqn:Ex.
    + destruct (IH seen) as [H1 [H2 H3]]. apply mem_iff in Ex.
      split; [exact H1|]. split.
      * intros q. rewrite H2. simpl. split; [tauto|].
        intros [[<-|Hq] Hn]; tauto.
      * intros r Hr. right. now apply H3.
    + destruct (IH (s_query x :: seen)) as [H1 [H2 H3]].
      assert (Hx : ~ In (s_query x) seen).
      { intros H. apply mem_iff in H. congruence. }
      cbn [map]. split; [|split].
      * constructor; [|exact H1]. intros Hin. apply H2 in Hin.
        destruct Hin as [_ Hin]. apply Hin. now left.
      * intros q. simpl. rewrite H2. simpl. split.
        -- intros [<-|Hq]; tauto.
        -- intros [[<-|Hq] Hn]; [now left|].
           destruct (String.eqb_spec (s_query x) q) as [->|Hne];
             [now left | right; tauto].
      * intros r [<-|Hr]; [now left | right; now apply H3].
Qed.

Lemma sorter_insert_perm (r : search_row) (l : list search_row) :
  Permutation (sorter_insert r l) (r :: l).
Proof.
  induction l as [|y l IH]; simpl; [reflexivity|].
  destruct (s_timestamp y <=? s_timestamp r)%Z; [reflexivity|].
  rewrite IH. apply perm_swap.
Qed.

Lemma order_by_timestamp_perm (rows : list search_row) :
  Permutation (order_by_timestamp_desc rows) rows.
Proof.
  induction rows as [|r rows IH]; simpl; [reflexivity|].
  rewrite sorter_insert_perm. now constructor.
Qed.

Lemma order_by_timestamp_newest (rows : list search_row) (r : search_row) :
  Forall (fun x => (s_timestamp x < s_timestamp r)%Z) rows ->
  order_by_timestamp_desc (rows ++ [r]) = r :: order_by_timestamp_desc rows.
Proof.
  intros H. induction H as [|x rows Hx _ IH]; [reflexivity|].
  cbn [app order_by_timestamp_desc]. rewrite IH. cbn [sorter_insert].
  apply Z.leb_gt in Hx. now rewrite Hx.
Qed.

(** X16: what the recent searches are.  [load_recent_searches] returns at
    most five queries, all different, each of them recorded; when at most
    five different queries were ever recorded, it returns every one. *)
Theorem load_recent_searches_bounds (db : database) :
  (length (load_recent_searches db) <= 5)%nat
  /\ NoDup (load_recent_searches db)
  /\ incl (load_recent_searches db) (map s_query (searches db))
  /\ ((length (distinct_scan [] (searches db)) <= 5)%nat ->
      incl (map s_query (searches db)) (load_recent_searches db)).
Proof.
  unfold load_recent_searches.
  destruct (distinct_scan_queries (searches db) []) as [Hnd [Hq Hincl]].
  pose proof (order_by_timestamp_perm (distinct_scan [] (searches db))) as Hp.
  split; [rewrite length_map; apply firstn_le_length|].
  split.
  { rewrite <- firstn_map. apply NoDup_firstn_of.
    eapply Permutation_NoDup; [|exact Hnd].
    apply Permutation_map. now symmetry. }
  split.
  { intros q Hin. rewrite <- firstn_map in Hin. apply In_firstn_in in Hin.
    apply (Permutation_in _ (Permutation_map s_query Hp)) in Hin.
    now apply Hq in Hin. }
  intros Hlen q Hin. rewrite firstn_all2.
  - apply (Permutation_in _ (Permutation_map s_query (Permutation_sym Hp))).
    apply Hq. split; [exact Hin | intros []].
  - now rewrite (Permutation_length Hp).
Qed.

(** X17: searching again.  Recording a query that is already in the history
    does not change the recent searches: the query keeps the place of its
    first search. *)
Theorem search_again_keeps_recent (db : database) (q : string) (now : Z) :
  In q (map s_query (searches db)) ->
  load_recent_searches (save_search_query db q now) = load_recent_searches db.
Proof.
  intros Hin. unfold load_recent_searches, save_search_query.
  cbn [searches]. rewrite distinct_scan_snoc. cbn [s_query].
  apply mem_iff in Hin. rewrite Hin, orb_true_r. now rewrite app_nil_r.
Qed.

(** X18: a new search.  Recording a query that was never searched, at a
    time later than every recorded search, puts it first and keeps the
    four that led before. *)
Theorem new_search_comes_first (db : database) (q : string) (now : Z) :
  ~ In q (map s_query (searches db)) ->
  Forall (fun r => (s_timestamp r < now)%Z) (searches db) ->
  load_recent_searches (save_search_query db q now)
  = q :: firstn 4 (load_recent_searches db).
Proof.
  intros Hnew Hlate. unfold load_recent_searches, save_search_query.
  cbn [searches]. rewrite distinct_scan_snoc. cbn [s_query mem existsb orb].
  assert (Hm : mem q (map s_query (searches db)) = false).
  { destruct (mem q (map s_query (searches db))) eqn:E; [|reflexivity].
    apply mem_iff in E. tauto. }
  rewrite Hm. rewrite order_by_timestamp_newest.
  - change 5%nat with (S 4). rewrite firstn_cons. cbn [map s_query]. f_equal.
    rewrite firstn_map, firstn_firstn. reflexivity.
  - destruct (distinct_scan_queries (searches db) []) as [_ [_ Hincl]].
    rewrite Forall_forall in *. intros r Hr. cbn [s_timestamp].
    apply Hlate. now apply Hincl.
Qed.

End History.

(** X17: "ai" searched once more after the six sample searches. *)
Lemma search_again_keeps_recent_witness :
  Store.load_recent_searches
    (Store.save_search_query Samples.six_searches "ai" 7)
  = Store.load_recent_searches Samples.six_searches.
Proof.
  apply search_again_keeps_recent. simpl. now left.
Defined.

(** X18: "mars" searched after the six sample searches. *)
Lemma new_search_comes_first_witness :
  Store.load_recent_searches
    (Store.save_search_query Samples.six_searches "mars" 7)
  = "mars" :: firstn 4 (Store.load_recent_searches Samples.six_searches).
Proof.
  apply new_search_comes_first.
  - simpl. intros [H|[H|[H|[H|[H|[H|[]]]]]]]; discriminate H.
  - simpl. repeat constructor.
Defined.

(* ================================================================== *)
(** ** Analytics *)
(* ================================================================== *)

Section TopKeywords.
Import Store Analytics.

Lemma StronglySorted_firstn {A} (R : A -> A -> Prop) (n : nat) (l : list A) :
  StronglySorted R l -> StronglySorted R (firstn n l).
Proof.
  intros H. revert n. induction H as [|a l Hs IH Hall]; intros n.
  - rewrite firstn_nil. constructor.
  - destruct n; simpl; constructor; [apply IH|].
    rewrite Forall_forall in *. intros x Hx. apply Hall.
    now apply (In_firstn_in n).
Qed.

Lemma StronglySorted_app_inv {A} (R : A -> A -> Prop) (l1 l2 : list A) :
  StronglySorted R (l1 ++ l2) ->
  forall x y, In x l1 -> In y l2 -> R x y.
Proof.
  induction l1 as [|a l1 IH]; simpl; intros H x y Hx Hy; [destruct Hx|].
  inversion H as [|? ? Hs Hall]; subst. destruct Hx as [<-|Hx].
  - rewrite Forall_forall in Hall. apply Hall. apply in_or_app. now right.
  - now apply IH.
Qed.

Lemma same_members_length {A} (l1 l2 : list A) :
  NoDup l1 -> NoDup l2 -> (forall x, In x l1 <-> In x l2) ->
  length l1 = length l2.
Proof.
  intros H1 H2 H. apply Nat.le_antisymm; apply NoDup_incl_length;
    try assumption; intros x Hx; now apply H.
Qed.

(** X19: the Top Keywords line.  [generate_analytics] shows top keywords
    exactly when the [keywords] of the rows created in the last 30 days
    list some keyword.  Then it shows the ten most listed of the distinct
    keywords (all of them when there are fewer than ten), each once, each
    with the exact number of times it is listed there, in descending order
    of that number; a keyword that is left out is listed no more often
    than any keyword shown. *)
Theorem top_keywords_counts (db : database) (now : Z) :
  match top_keywords db now with
  | None => all_keywords (last_30_days db now) = []
  | Some top =>
      all_keywords (last_30_days db now) <> []
      /\ top <> []
      /\ length top
         = Nat.min 10 (length (nodup string_dec
                                 (all_keywords (last_30_days db now))))
      /\ (length top <= 10)%nat
      /\ NoDup (map fst top)
      /\ Forall (fun e =>
                   snd e = Z.of_nat (occurrences (last_30_days db now) (fst e))
                   /\ (0 < snd e)%Z)
                top
      /\ StronglySorted (fun x y => (snd y <= snd x)%Z) top
      /\ (forall w,
            In w (all_keywords (last_30_days db now)) ->
            ~ In w (map fst top) ->
            Forall (fun e =>
                      (Z.of_nat (occurrences (last_30_days db now) w)
                       <= snd e)%Z)
                   top)
  end.
Proof.
  unfold top_keywords, occurrences.
  set (kws := all_keywords (last_30_days db now)).
  destruct kws as [|k kws'] eqn:E; [reflexivity|]. rewrite <- E.
  assert (Hne : kws <> []) by (rewrite E; discriminate).
  unfold most_common.
  destruct (count_words_counts kws) as [Hs [Hk Hc]].
  pose proof (sorted_desc_perm (count_words kws)) as Hp.
  set (sorted := sorted_desc (count_words kws)) in *.
  assert (Hkeys : NoDup (map fst (count_words kws))).
  { eapply StronglySorted_NoDup; [|exact Hs]. intros a. apply Nat.lt_irrefl. }
  assert (Hlen : length (firstn (Z.to_nat 10) sorted)
                 = Nat.min 10 (length (nodup string_dec kws))).
  { rewrite length_firstn. f_equal.
    rewrite (Permutation_length Hp), <- (length_map fst).
    apply same_members_length; [exact Hkeys | apply NoDup_nodup |].
    intros x. rewrite nodup_In. apply Hk. }
  assert (Hsorted : StronglySorted (fun x y => (snd y <= snd x)%Z) sorted).
  { eapply StronglySorted_weaken;
      [|apply (sorted_desc_sorted (Spec.first_seen kws));
        exact (StronglySorted_of_map fst _ _ Hs)].
    intros a b _ _. unfold Spec.outranks. lia. }
  split; [exact Hne|]. split.
  { intros Hnil. rewrite Hnil in Hlen. simpl in Hlen.
    assert (Hin : In k (nodup string_dec kws)).
    { apply nodup_In. rewrite E. now left. }
    destruct (nodup string_dec kws); [destruct Hin | simpl in Hlen; lia]. }
  split; [exact Hlen|].
  split; [apply firstn_le_length|]. split.
  { rewrite <- firstn_map. apply NoDup_firstn_of.
    eapply Permutation_NoDup;
      [apply Permutation_map; symmetry; exact Hp | exact Hkeys]. }
  split.
  { rewrite Forall_forall. intros e He. apply In_firstn_in in He.
    apply (Permutation_in _ Hp) in He.
    rewrite Forall_forall in Hc. pose proof (Hc e He) as Hce.
    split; [exact Hce|]. rewrite Hce.
    assert (Hin : In (fst e) kws).
    { apply Hk. now apply in_map. }
    apply (count_occ_In string_dec) in Hin. unfold Spec.frequency. lia. }
  split; [now apply StronglySorted_firstn|].
  intros w Hw Hout. rewrite Forall_forall. intros e He.
  apply Hk in Hw. apply in_map_iff in Hw. destruct Hw as [ew [Hfst Hew]].
  rewrite Forall_forall in Hc. pose proof (Hc ew Hew) as Hcw.
  apply (Permutation_in _ (Permutation_sym Hp)) in Hew.
  rewrite <- (firstn_skipn (Z.to_nat 10) sorted) in Hew, Hsorted.
  apply in_app_or in Hew. destruct Hew as [Hew|Hew].
  - exfalso. apply Hout. rewrite <- Hfst. now apply in_map.
  - pose proof (StronglySorted_app_inv _ _ _ Hsorted e ew He Hew) as Hle.
    cbv beta in Hle. rewrite Hcw, Hfst in Hle. exact Hle.
Qed.

End TopKeywords.

(* ================================================================== *)
(** ** The two actions *)
(* ================================================================== *)

Section ActionFacts.
Import Invariants.
Context {DT : DateTimeLib}.



Variable network : Gui.request -> Fetcher.http_reply.
Variable O : sentiment_oracle.





End ActionFacts.

(* ================================================================== *)
(** ** The sample window at work *)
(* ================================================================== *)

Section SampleWindow.
Import Samples Scenes.

(** A refresh writes the fetched article under the category "all" and
    replaces the bookmarked row of its url. *)
Example refresh_sample :
  let out := Gui.refresh_news news_api no_textblob "2024-04-24" 20 window in
  map Store.r_category (Store.articles (Gui.db (fst out))) = [Some "all"]
  /\ map Store.bookmarked (Store.articles (Gui.db (fst out))) = [0%Z]
  /\ map title (Gui.current_articles (fst out)) = [Some "Markets rallied"]
  /\ nth_error (snd out) 1 = Some (Gui.hide_loading "Loaded 1 articles").
Proof. cbv zeta. repeat split. Qed.

(** A search records " mars " as "mars" and stores no article; with the
    network down it records nothing, and neither action shows a box. *)
Example search_sample :
  let out := Gui.search_news news_api no_textblob "2024-04-24" 20 window in
  map Store.s_query (Store.searches (Gui.db (fst out))) = ["mars"]
  /\ Store.articles (Gui.db (fst out)) = Store.articles bookmarked_store
  /\ nth_error (snd out) 1 = Some (Gui.hide_loading "Found 1 articles").
Proof. cbv zeta. repeat split. Qed.

Example search_sample_offline :
  Gui.search_news no_network no_textblob "2024-04-24" 20 window
  = (window, [ Gui.hide_loading "Error"; Gui.callback_name_error "e" ])
  /\ Gui.refresh_news no_network no_textblob "2024-04-24" 20 window
     = (window, [ Gui.hide_loading "Error"; Gui.callback_name_error "e" ]).
Proof. split; reflexivity. Qed.

(** The Top Keywords of the sample store, and of an empty one. *)
Example top_keywords_sample :
  Analytics.top_keywords bookmarked_store 100
  = Some [("markets", 1%Z); ("rallied", 1%Z); ("stocks", 1%Z); ("gained", 1%Z)]
  /\ Analytics.top_keywords Store.setup_database 100 = None
  /\ Analytics.top_keywords bookmarked_store (10 + 31 * 86400) = None.
Proof. repeat split. Qed.

(** [strip] and [split(',')] on small inputs. *)
Example strip_sample :
  Text.strip "  a b  " = "a b" /\ Text.strip "   " = ""
  /\ Text.split_on "," "" = [""] /\ Text.split_on "," "a,,b" = ["a"; ""; "b"].
Proof. repeat split. Qed.

End SampleWindow.
